(** * NFC plugin: the NDEF record decoder, the Swift session manager and
      the TypeScript facade

    A shallow embedding of

    - the record decoder of [NFCNDEFReaderSessionDelegateImpl]
      ([recordToJSON] and the helpers it calls) and the delegate's
      handling of a detected tag,
    - the Swift class [NFCManager] (one session at a time, one result per
      session, results handed to a callback through the main queue), with
      the text record it writes and its reading of a message,
    - the promise-returning methods of the TypeScript class [Nfc]
      ([available], [enabled], [setOnNdefDiscoveredListener],
      [stopListening], [writeTag]) and the closures they hand to the
      native manager.

    JavaScript strings are modelled by [string]: every code unit the
    decoder builds comes from one byte, so it is below 256.  The strings
    of a native result ([url], [text]) have the same type: the model
    covers those whose code units are below 256, and says nothing of
    other text.  JavaScript numbers are integers here, together with
    [NaN]. *)

From Stdlib Require Import ZArith NArith List Strings.String Strings.Ascii Strings.Byte Bool Lia.
From Stdlib Require Import DecimalString.
Import ListNotations.

Local Open Scope string_scope.
Local Open Scope Z_scope.

(** ** The JavaScript primitives the decoder uses *)

Module JS.

(** A JavaScript number: only integers and [NaN] arise. *)
Inductive number : Type :=
| NaN
| Num (z : Z).

Definition num_add (a b : number) : number :=
  match a, b with
  | Num x, Num y => Num (x + y)
  | _, _ => NaN
  end.

(** The digit characters of [Number.prototype.toString(16)]. *)
Definition hexDigit (d : N) : ascii :=
  match d with
  | 0%N => "0" | 1%N => "1" | 2%N => "2" | 3%N => "3"
  | 4%N => "4" | 5%N => "5" | 6%N => "6" | 7%N => "7"
  | 8%N => "8" | 9%N => "9" | 10%N => "a" | 11%N => "b"
  | 12%N => "c" | 13%N => "d" | 14%N => "e" | _ => "f"
  end%char.

Fixpoint toString16_digits (fuel : nat) (n : N) (acc : string) : string :=
  match fuel with
  | O => acc
  | S fuel' =>
      let acc' := String (hexDigit (n mod 16)) acc in
      if (n / 16 =? 0)%N then acc' else toString16_digits fuel' (n / 16) acc'
  end.

(** [x.toString(16)] for a non-negative integer [x]. *)
Definition toString16 (n : N) : string :=
  toString16_digits (S (N.size_nat n)) n "".

(** [s.slice(start)]: a negative [start] counts from the end. *)
Definition slice (s : string) (start : Z) : string :=
  let len := Z.of_nat (String.length s) in
  let from := if start <? 0 then Z.max (len + start) 0 else Z.min start len in
  String.substring (Z.to_nat from) (Z.to_nat (len - from)) s.

(** [s.substring(start)]: [NaN] and negative numbers count as 0, and
    a start beyond the end as the length. *)
Definition substring (s : string) (start : number) : string :=
  let len := Z.of_nat (String.length s) in
  let from :=
    match start with
    | NaN => 0
    | Num z => Z.min (Z.max z 0) len
    end in
  String.substring (Z.to_nat from) (Z.to_nat (len - from)) s.

Definition isDecimalDigit (c : ascii) : bool :=
  let n := N_of_ascii c in ((48 <=? n) && (n <=? 57))%N.

Fixpoint allDecimalDigits (s : string) : bool :=
  match s with
  | EmptyString => true
  | String c s' => isDecimalDigit c && allDecimalDigits s'
  end.

Fixpoint decimalValue (acc : N) (s : string) : N :=
  match s with
  | EmptyString => acc
  | String c s' => decimalValue (10 * acc + (N_of_ascii c - 48))%N s'
  end.

(** Unary plus, [+v], on a value that is a string or [undefined].  The
    strings this program applies it to are the elements of
    [buf2hexArray]: two lower-case hexadecimal digits.  Such a string
    is a numeric literal exactly when both of its characters are
    decimal digits (a letter a-f makes it [NaN]: one "e" is not an
    exponent, and there is no 0x prefix), and it is then read in base
    ten.  Signs, white space, fractions and exponents are outside this
    domain and are not modelled. *)
Definition unaryPlus (v : option string) : number :=
  match v with
  | None => NaN
  | Some s => if allDecimalDigits s then Num (Z.of_N (decimalValue 0 s)) else NaN
  end.

Definition hexDigitValue (c : ascii) : option N :=
  let n := N_of_ascii c in
  if ((48 <=? n) && (n <=? 57))%N then Some (n - 48)%N
  else if ((97 <=? n) && (n <=? 102))%N then Some (n - 87)%N
  else if ((65 <=? n) && (n <=? 70))%N then Some (n - 55)%N
  else None.

Fixpoint parseHexPrefix (acc : option N) (s : string) : option N :=
  match s with
  | EmptyString => acc
  | String c s' =>
      match hexDigitValue c with
      | None => acc
      | Some d =>
          parseHexPrefix
            (Some (16 * match acc with Some a => a | None => 0 end + d)%N) s'
      end
  end.

(** [parseInt(s, 16)] on a string without sign, white space or 0x
    prefix (here: a piece of the output of [buf2hexString]): the
    longest prefix of hexadecimal digits, [NaN] when it is empty. *)
Definition parseInt16 (s : string) : number :=
  match parseHexPrefix None s with
  | None => NaN
  | Some n => Num (Z.of_N n)
  end.

(** [String.fromCharCode(n)]; [NaN] gives code unit 0.  [parseInt16]
    reads at most two digits here, so the code unit fits a byte. *)
Definition fromCharCode (n : number) : ascii :=
  match n with
  | NaN => zero
  | Num z => ascii_of_N (Z.to_N (z mod 256))
  end.

Definition toLowerCaseChar (c : ascii) : ascii :=
  let n := N_of_ascii c in
  if ((65 <=? n) && (n <=? 90))%N then ascii_of_N (n + 32) else c.

Fixpoint toLowerCase (s : string) : string :=
  match s with
  | EmptyString => EmptyString
  | String c s' => String (toLowerCaseChar c) (toLowerCase s')
  end.

Fixpoint indexOf_from (i : Z) (s : string) (c : ascii) : Z :=
  match s with
  | EmptyString => -1
  | String d s' => if Ascii.eqb d c then i else indexOf_from (i + 1) s' c
  end.

(** [s.indexOf(c)] for a one-character [c]. *)
Definition indexOf (s : string) (c : ascii) : Z := indexOf_from 0 s c.

(** A property key is an array index when it is the canonical decimal
    numeral of an integer below 2^32 - 1: no leading zero (the key
    "02" is not the index 2), no other character. *)
Definition arrayIndex (key : string) : option nat :=
  match key with
  | EmptyString => None
  | String c rest =>
      if allDecimalDigits key
         && (negb (Ascii.eqb c "0"%char) || String.eqb rest "")
         && (decimalValue 0 key <? 4294967295)%N
      then Some (N.to_nat (decimalValue 0 key))
      else None
  end.

(** The key a value is converted to in [a[v]]: [undefined] becomes the
    string "undefined". *)
Definition toPropertyKey (v : option string) : string :=
  match v with
  | None => "undefined"
  | Some s => s
  end.

(** [a[v]] where [a] is an array of strings and [v] a string or
    [undefined], as the decoder uses it: an element when the key is an
    array index in range, [undefined] otherwise (the keys met here,
    two hexadecimal digits or "undefined", name no other property of
    an array). *)
Definition arrayGet (a : list string) (v : option string) : option string :=
  match arrayIndex (toPropertyKey v) with
  | Some i => nth_error a i
  | None => None
  end.

(** [!v] for a string or [undefined]: the empty string is falsy. *)
Definition falsy (v : option string) : bool :=
  match v with
  | None => true
  | Some s => String.eqb s ""
  end.

Fixpoint join (sep : string) (l : list string) : string :=
  match l with
  | [] => ""
  | [x] => x
  | x :: rest => x ++ sep ++ join sep rest
  end.

Definition decimalString (z : Z) : string :=
  if z <? 0 then "-" ++ NilZero.string_of_uint (N.to_uint (Z.to_N (- z)))
  else NilZero.string_of_uint (N.to_uint (Z.to_N z)).

(** [JSON.stringify] of an array of integers. *)
Definition stringifyNumbers (l : list Z) : string :=
  "[" ++ join "," (map decimalString l) ++ "]".

(** [s.padStart(n, c)] for a one-character [c]. *)
Definition padStart (s : string) (n : nat) (c : ascii) : string :=
  let fix pad (k : nat) (acc : string) : string :=
    match k with
    | O => acc
    | S k' => pad k' (String c acc)
    end in
  pad (n - String.length s)%nat s.

(** How a JavaScript call completes: normally with a value, or by
    throwing. *)
Inductive completion (A : Type) : Type :=
| Normal (a : A)
| Throw (e : string).
Arguments Normal {A} a.
Arguments Throw {A} e.

End JS.

(** ** The record decoder *)

Module Ndef.

Import JS.

(** The native record ([NFCNDEFPayload]); an [NSData] is its bytes. *)
Record NFCNDEFPayload : Type := {
  typeNameFormat : Z;
  type : list byte;
  identifier : list byte;
  payload : list byte
}.

(** The decoded record ([NfcNdefRecord]).  [rtype] is [undefined]
    ([None]) when the native type is empty; [id] and [rpayload] are
    the JSON texts [hexToDecArray] returns. *)
Record NfcNdefRecord : Type := {
  tnf : Z;
  rtype : option Z;
  id : string;
  rpayload : string;
  payloadAsHexString : string;
  payloadAsStringWithPrefix : string;
  payloadAsString : string
}.

(** [('00' + x.toString(16)).slice(-2)] for an element [x] of a
    [Uint8Array]. *)
Definition hex2 (x : byte) : string :=
  slice ("00" ++ toString16 (Byte.to_N x)) (-2).

Definition buf2hexArray (buffer : list byte) : list string :=
  map hex2 buffer.

Definition buf2hexString (buffer : list byte) : string :=
  join "" (map hex2 buffer).

Fixpoint hex2a (hex : string) : string :=
  match hex with
  | EmptyString => EmptyString
  | String a EmptyString =>
      String (fromCharCode (parseInt16 (String a EmptyString))) EmptyString
  | String a (String b rest) =>
      String (fromCharCode (parseInt16 (String a (String b EmptyString))))
             (hex2a rest)
  end.

Definition nsdataToHexString (data : list byte) : string := buf2hexString data.
Definition nsdataToHexArray (data : list byte) : list string := buf2hexArray data.
Definition nsdataToASCIIString (data : list byte) : string :=
  hex2a (nsdataToHexString data).

(** The inner loop shared by [hexToDec] and [hexToDecArray]:
    [result = result * 16 + '0123456789abcdefgh'.indexOf(hex[i])]. *)
Fixpoint hexLoop (result : Z) (hex : string) : Z :=
  match hex with
  | EmptyString => result
  | String c hex' => hexLoop (result * 16 + indexOf "0123456789abcdefgh" c) hex'
  end.

Definition hexToDec (hex : option string) : option Z :=
  match hex with
  | None => None
  | Some h => Some (hexLoop 0 (toLowerCase h))
  end.

Definition hexToDecArray (hexArray : list string) : string :=
  stringifyNumbers (map (fun h => hexLoop 0 (toLowerCase h)) hexArray).

Section Decoder.

(** The table [NfcUriProtocols] of [./common], an array of strings. *)
Variable NfcUriProtocols : list string.

Definition recordToJSON (record : NFCNDEFPayload) : NfcNdefRecord :=
  let payloadAsHexArray := nsdataToHexArray (payload record) in
  let payloadAsString0 := nsdataToASCIIString (payload record) in
  let payloadAsStringWithPrefix := payloadAsString0 in
  let recordType := nsdataToHexArray (type record) in
  let decimalType := hexToDec (hd_error recordType) in
  let payloadAsString :=
    match decimalType with
    | Some 84 =>
        let languageCodeLength := unaryPlus (hd_error payloadAsHexArray) in
        substring payloadAsStringWithPrefix (num_add languageCodeLength (Num 1))
    | Some 85 =>
        let prefix0 := arrayGet NfcUriProtocols (hd_error payloadAsHexArray) in
        let prefix :=
          if falsy prefix0 then ""
          else match prefix0 with Some p => p | None => "" end in
        prefix ++ slice payloadAsString0 1
    | _ => payloadAsString0
    end in
  {| tnf := typeNameFormat record;
     rtype := decimalType;
     id := hexToDecArray (nsdataToHexArray (identifier record));
     rpayload := hexToDecArray payloadAsHexArray;
     payloadAsHexString := nsdataToHexString (payload record);
     payloadAsStringWithPrefix := payloadAsStringWithPrefix;
     payloadAsString := payloadAsString |}.

Definition messageToJSON (records : list NFCNDEFPayload) : list NfcNdefRecord :=
  map recordToJSON records.

(** [ndefToJson]; [None] is [null]. *)
Definition ndefToJson (message : option (list NFCNDEFPayload))
  : option (list NfcNdefRecord) :=
  match message with
  | None => None
  | Some records => Some (messageToJSON records)
  end.

(** A call of [recordToJSON] as its caller sees it.  No step of it
    throws: [a[0]] of an empty array is [undefined], [hexToDec] returns
    [undefined] for it before touching it, unary plus makes it [NaN],
    indexing the table with it finds nothing, and [substring] and
    [slice] accept any start.  So the call completes normally. *)
Definition recordToJSON_call (record : NFCNDEFPayload) : completion NfcNdefRecord :=
  Normal (recordToJSON record).

(** What the calls made for a detected tag give, call by call.  Only
    the first call, connecting, is made inside the [try] of
    [readerSessionDidDetectTags]; the status query is made inside the
    connect handler and [tag.readNDEF] inside the status handler, so a
    throw of either ([Throw]) is caught by nothing.

    Reading: whether the read handler is given an error, the message
    ([None] for a missing one), and whether [resultCallback] throws
    when it is called. *)
Record ReadAnswers : Type := {
  readError : bool;
  message : option (list NFCNDEFPayload);
  callbackThrows : bool
}.

(** The status query: whether the handler is given an error, the NDEF
    status, and what calling [tag.readNDEF] gives. *)
Record StatusAnswers : Type := {
  statusError : bool;
  status : Z;
  reading : completion ReadAnswers
}.

(** Connecting: whether the handler is given an error, and what
    calling the status query gives. *)
Record ConnectAnswers : Type := {
  connectError : bool;
  querying : completion StatusAnswers
}.

(** What the delegate does with a detected tag: the alert message it
    sets, whether it invalidates the session at once or half a second
    later, the argument of its call to [resultCallback], if it makes
    one, and whether an exception leaves a completion handler
    uncaught. *)
Record Detection : Type := {
  alertMessage : option string;
  invalidatesNow : bool;
  invalidatesLater : bool;
  resultCallbackArg : option (option (list NfcNdefRecord));
  escapes : bool
}.

Definition failedDetection (msg : string) : Detection :=
  {| alertMessage := Some msg; invalidatesNow := true; invalidatesLater := false;
     resultCallbackArg := None; escapes := false |}.

(** An exception thrown inside a completion handler before anything
    was done there. *)
Definition escapedDetection : Detection :=
  {| alertMessage := None; invalidatesNow := false; invalidatesLater := false;
     resultCallbackArg := None; escapes := true |}.

(** [readerSessionDidDetectTags] (iOS 13 and later).  [stopAfterFirstRead]
    is [this.options && this.options.stopAfterFirstRead]; [connecting]
    is [Throw] when taking the first tag or connecting to it throws,
    which the [catch] handles.  Setting [session.alertMessage] and
    calling [session.invalidateSession()] are taken not to throw, as
    the [catch] handler itself takes them. *)
Definition readerSessionDidDetectTags (stopAfterFirstRead : bool)
  (connecting : completion ConnectAnswers) : Detection :=
  match connecting with
  | Throw _ => failedDetection "Error processing tag"
  | Normal c =>
      if connectError c then failedDetection "Failed to connect to tag"
      else
        match querying c with
        | Throw _ => escapedDetection
        | Normal q =>
            if statusError q then failedDetection "Failed to query tag"
            else if status q =? 1 then failedDetection "Tag does not support NDEF"
            else
              match reading q with
              | Throw _ => escapedDetection
              | Normal a =>
                  if readError a then failedDetection "Failed to read tag"
                  else
                    match message a with
                    | None => failedDetection "Tag is empty"
                    | Some records =>
                        {| alertMessage := Some "Tag read successfully!";
                           invalidatesNow := false;
                           invalidatesLater := stopAfterFirstRead;
                           resultCallbackArg := Some (ndefToJson (Some records));
                           escapes := callbackThrows a |}
                    end
              end
        end
  end.

End Decoder.

End Ndef.

(** ** The Swift session manager *)

Module NFCManager.

Inductive NFCSessionMode : Type := scan | write.

Inductive NFCBridgeError : Type :=
| recordCreation (msg : string)
| invalidUrl (msg : string).

(** The result handed to TypeScript.  The Swift code serialises a
    dictionary with these keys to JSON and TypeScript parses it back
    into [NFCResult]; the record stands for that JSON text. *)
Record NFCResult : Type := {
  success : bool;
  message : string;
  url : option string;
  text : option string;
  raw : option string;
  errorCode : option string
}.

(** A TypeScript callback closure and a native reader session, by
    identity. *)
Definition Callback : Type := nat.
Definition Session : Type := nat.

Record Manager : Type := {
  readerSession : option Session;
  sessionMode : NFCSessionMode;
  writeUrl : option string;
  resultCallback : option Callback;
  hasEmittedResult : bool;
  isSessionActive : bool
}.

Inductive NDEFStatus : Type :=
| notSupported
| readWrite
| readOnly
| unknownStatus.

(** What a detected tag answers.  [readNDEF] is [None] when reading
    throws, otherwise the triple [parseNdefMessage] computes from the
    message read (through CoreNFC's payload accessors); [failure] is
    the description of whichever call throws. *)
Record Tag : Type := {
  connects : bool;
  queryNDEFStatus : option NDEFStatus;
  readNDEF : option (option string * option string * option string);
  writeNDEF : bool;
  failure : string
}.

Inductive ReaderErrorCode : Type :=
| readerSessionInvalidationErrorUserCanceled
| readerSessionInvalidationErrorFirstNDEFTagRead
| readerSessionInvalidationErrorSessionTimeout
| readerSessionInvalidationErrorSessionTerminatedUnexpectedly
| readerSessionInvalidationErrorSystemIsBusy
| readerTransceiveErrorTagConnectionLost
| readerTransceiveErrorTagResponseError
| readerTransceiveErrorTagNotConnected
| readerTransceiveErrorPacketTooLong
| readerTransceiveErrorRetryExceeded
| ndefReaderSessionErrorTagNotWritable
| ndefReaderSessionErrorTagUpdateFailure
| ndefReaderSessionErrorTagSizeTooSmall
| ndefReaderSessionErrorZeroLengthMessage
| unknownCode (rawValue : Z).

Inductive SessionError : Type :=
| readerError (code : ReaderErrorCode) (localizedDescription : string)
| otherError (localizedDescription : string).

(** Calls made on a native session. *)
Inductive NativeCall : Type :=
| begin (s : Session)
| invalidate (s : Session)
| restartPolling (s : Session)
| alertMessage (s : Session) (msg : string).

(** Work handed to a queue. *)
Inductive Block : Type :=
| emitBlock (jsonStr : NFCResult)
| closeBlock (s : Session)
| restartBlock (s : Session).

(** The device: [readingAvailable], whether creating a session yields
    one, and Foundation's URL parser and CoreNFC's URI payload
    constructor as used by [createNdefMessageForWriting]. *)
Record Device : Type := {
  readingAvailable : bool;
  sessionCreated : bool;
  urlAbsoluteString : string -> option string;
  wellKnownTypeURIPayload : string -> bool
}.

(** The manager with its surroundings: the main queue (first in, first
    out), the blocks waiting for an [asyncAfter] deadline, the tasks
    started by [didDetect], the calls made to TypeScript callbacks and
    to native sessions. *)
Record World : Type := {
  manager : Manager;
  mainQueue : list Block;
  timers : list Block;
  tasks : list (Tag * Session);
  delivered : list (Callback * NFCResult);
  nativeCalls : list NativeCall;
  nextSession : Session
}.

Definition initManager : Manager :=
  {| readerSession := None; sessionMode := scan; writeUrl := None;
     resultCallback := None; hasEmittedResult := false;
     isSessionActive := false |}.

Definition initWorld : World :=
  {| manager := initManager; mainQueue := []; timers := []; tasks := [];
     delivered := []; nativeCalls := []; nextSession := O |}.

Definition setManager (w : World) (m : Manager) : World :=
  {| manager := m; mainQueue := mainQueue w; timers := timers w;
     tasks := tasks w; delivered := delivered w;
     nativeCalls := nativeCalls w; nextSession := nextSession w |}.

Definition upd (f : Manager -> Manager) (w : World) : World :=
  setManager w (f (manager w)).

Definition setReaderSession (v : option Session) (m : Manager) : Manager :=
  {| readerSession := v; sessionMode := sessionMode m; writeUrl := writeUrl m;
     resultCallback := resultCallback m; hasEmittedResult := hasEmittedResult m;
     isSessionActive := isSessionActive m |}.

Definition setSessionMode (v : NFCSessionMode) (m : Manager) : Manager :=
  {| readerSession := readerSession m; sessionMode := v; writeUrl := writeUrl m;
     resultCallback := resultCallback m; hasEmittedResult := hasEmittedResult m;
     isSessionActive := isSessionActive m |}.

Definition setWriteUrl (v : option string) (m : Manager) : Manager :=
  {| readerSession := readerSession m; sessionMode := sessionMode m; writeUrl := v;
     resultCallback := resultCallback m; hasEmittedResult := hasEmittedResult m;
     isSessionActive := isSessionActive m |}.

Definition setResultCallback (v : option Callback) (m : Manager) : Manager :=
  {| readerSession := readerSession m; sessionMode := sessionMode m;
     writeUrl := writeUrl m; resultCallback := v;
     hasEmittedResult := hasEmittedResult m;
     isSessionActive := isSessionActive m |}.

Definition setHasEmittedResult (v : bool) (m : Manager) : Manager :=
  {| readerSession := readerSession m; sessionMode := sessionMode m;
     writeUrl := writeUrl m; resultCallback := resultCallback m;
     hasEmittedResult := v; isSessionActive := isSessionActive m |}.

Definition setIsSessionActive (v : bool) (m : Manager) : Manager :=
  {| readerSession := readerSession m; sessionMode := sessionMode m;
     writeUrl := writeUrl m; resultCallback := resultCallback m;
     hasEmittedResult := hasEmittedResult m; isSessionActive := v |}.

Definition native (c : NativeCall) (w : World) : World :=
  {| manager := manager w; mainQueue := mainQueue w; timers := timers w;
     tasks := tasks w; delivered := delivered w;
     nativeCalls := nativeCalls w ++ [c]; nextSession := nextSession w |}.

(** [DispatchQueue.main.async]. *)
Definition mainAsync (b : Block) (w : World) : World :=
  {| manager := manager w; mainQueue := mainQueue w ++ [b]; timers := timers w;
     tasks := tasks w; delivered := delivered w;
     nativeCalls := nativeCalls w; nextSession := nextSession w |}.

(** [asyncAfter]. *)
Definition asyncAfter (b : Block) (w : World) : World :=
  {| manager := manager w; mainQueue := mainQueue w; timers := timers w ++ [b];
     tasks := tasks w; delivered := delivered w;
     nativeCalls := nativeCalls w; nextSession := nextSession w |}.

(** [Task { await processTag(...) }]. *)
Definition spawn (t : Tag) (s : Session) (w : World) : World :=
  {| manager := manager w; mainQueue := mainQueue w; timers := timers w;
     tasks := tasks w ++ [(t, s)]; delivered := delivered w;
     nativeCalls := nativeCalls w; nextSession := nextSession w |}.

Definition failureResult (msg code : string) : NFCResult :=
  {| success := false; message := msg; url := None; text := None;
     raw := None; errorCode := Some code |}.

Definition resetState (w : World) : World :=
  upd (setIsSessionActive false) (upd (setHasEmittedResult false) w).

(** [emitResult]: the first call of a session marks the result as
    emitted and queues, on the main queue, the block that calls
    [resultCallback] and then clears it. *)
Definition emitResult (r : NFCResult) (w : World) : World :=
  if hasEmittedResult (manager w) then w
  else mainAsync (emitBlock r) (upd (setHasEmittedResult true) w).

Definition emitResultIfNeeded (r : NFCResult) (w : World) : World :=
  if hasEmittedResult (manager w) then w else emitResult r w.

Definition emitAndClose (s : Session) (r : NFCResult) (w : World) : World :=
  asyncAfter (closeBlock s) (emitResult r w).

Definition cleanupSession (w : World) : World :=
  let w1 :=
    match readerSession (manager w) with
    | Some s => native (invalidate s) w
    | None => w
    end in
  upd (setIsSessionActive false) (upd (setReaderSession None) w1).

Definition newSession (w : World) : World :=
  {| manager := setReaderSession (Some (nextSession w)) (manager w);
     mainQueue := mainQueue w; timers := timers w; tasks := tasks w;
     delivered := delivered w; nativeCalls := nativeCalls w;
     nextSession := S (nextSession w) |}.

Section Device.

Variable dev : Device.

Definition startSession (mode : NFCSessionMode) (w : World) : World :=
  let w1 :=
    match readerSession (manager w) with
    | Some s => upd (setReaderSession None) (native (invalidate s) w)
    | None => w
    end in
  if negb (readingAvailable dev) then
    emitResult (failureResult "NFC not supported on this device."
                              "NFC_NOT_AVAILABLE") w1
  else
    let w2 := upd (setHasEmittedResult false) (upd (setSessionMode mode) w1) in
    let w3 := if sessionCreated dev then newSession w2
              else upd (setReaderSession None) w2 in
    match readerSession (manager w3) with
    | None =>
        emitResult (failureResult "Failed to create NFC session."
                                  "SESSION_CREATE_FAILED") w3
    | Some s =>
        let w4 :=
          native (alertMessage s
                    match mode with
                    | scan => "Hold your iPhone near the NFC tag to scan."
                    | write => "Hold your iPhone near the NFC tag to write."
                    end) w3 in
        native (begin s) (upd (setIsSessionActive true) w4)
    end.

Definition scanWithCallback (callback : Callback) (w : World) : World :=
  let w1 := resetState w in
  let w2 := upd (setResultCallback (Some callback)) w1 in
  let w3 := upd (setWriteUrl None) w2 in
  startSession scan w3.

Definition writeWithUrlCallback (u : string) (callback : Callback) (w : World)
  : World :=
  let w1 := resetState w in
  let w2 := upd (setResultCallback (Some callback)) w1 in
  let w3 := upd (setWriteUrl (Some u)) w2 in
  startSession write w3.

Definition stopSession (w : World) : World :=
  let w1 :=
    if negb (hasEmittedResult (manager w))
       && match resultCallback (manager w) with Some _ => true | None => false end
    then
      emitResult {| success := false; message := "Session stopped by user.";
                    url := None; text := None; raw := None;
                    errorCode := Some "USER_STOPPED" |} w
    else w in
  cleanupSession w1.

Definition isAvailable (w : World) : bool := readingAvailable dev.

Definition getIsSessionActive (w : World) : bool := isSessionActive (manager w).

Definition didInvalidateWithError (error : SessionError) (w : World) : World :=
  let w1 := upd (setIsSessionActive false) (upd (setReaderSession None) w) in
  match error with
  | readerError code desc =>
      match code with
      | readerSessionInvalidationErrorUserCanceled =>
          emitResultIfNeeded (failureResult "Cancelled by user." "USER_CANCELLED") w1
      | readerSessionInvalidationErrorFirstNDEFTagRead => w1
      | readerSessionInvalidationErrorSessionTimeout =>
          emitResultIfNeeded
            (failureResult "Session timed out. Please try again." "SESSION_TIMEOUT") w1
      | readerSessionInvalidationErrorSessionTerminatedUnexpectedly =>
          emitResultIfNeeded
            (failureResult "Session terminated unexpectedly." "SESSION_TERMINATED") w1
      | readerSessionInvalidationErrorSystemIsBusy =>
          emitResultIfNeeded
            (failureResult "NFC is busy. Please try again." "SYSTEM_BUSY") w1
      | readerTransceiveErrorTagConnectionLost =>
          emitResultIfNeeded
            (failureResult "Tag connection lost. Hold steady and try again."
                           "CONNECTION_LOST") w1
      | readerTransceiveErrorTagResponseError =>
          emitResultIfNeeded (failureResult "Tag response error." "TAG_RESPONSE_ERROR") w1
      | readerTransceiveErrorTagNotConnected =>
          emitResultIfNeeded (failureResult "Tag not connected." "TAG_NOT_CONNECTED") w1
      | readerTransceiveErrorPacketTooLong =>
          emitResultIfNeeded
            (failureResult "Data too large for this tag." "PACKET_TOO_LONG") w1
      | readerTransceiveErrorRetryExceeded =>
          emitResultIfNeeded
            (failureResult "Communication failed after retries." "RETRY_EXCEEDED") w1
      | ndefReaderSessionErrorTagNotWritable =>
          emitResultIfNeeded (failureResult "Tag is not writable." "TAG_NOT_WRITABLE") w1
      | ndefReaderSessionErrorTagUpdateFailure =>
          emitResultIfNeeded
            (failureResult "Failed to write to tag." "TAG_UPDATE_FAILURE") w1
      | ndefReaderSessionErrorTagSizeTooSmall =>
          emitResultIfNeeded
            (failureResult "Tag capacity is too small for this data."
                           "TAG_SIZE_TOO_SMALL") w1
      | ndefReaderSessionErrorZeroLengthMessage =>
          emitResultIfNeeded
            (failureResult "Tag contains empty message." "ZERO_LENGTH_MESSAGE") w1
      | unknownCode _ =>
          emitResultIfNeeded (failureResult ("NFC error: " ++ desc) "UNKNOWN_NFC_ERROR") w1
      end
  | otherError desc =>
      emitResultIfNeeded (failureResult ("Error: " ++ desc) "UNKNOWN_ERROR") w1
  end.

(** [didDetectNDEFs] only logs. *)
Definition didDetectNDEFs (w : World) : World := w.

(** [didDetect tags], called for [session].  More
    than one tag, or none, restarts polling half a second later; one
    tag starts the task that processes it. *)
Definition didDetect (session : Session) (tags : list Tag) (w : World) : World :=
  if (1 <? List.length tags)%nat then
    asyncAfter (restartBlock session)
      (native (alertMessage session
                 "More than 1 tag detected. Remove extra tags and try again.") w)
  else
    match tags with
    | [] =>
        asyncAfter (restartBlock session)
          (native (alertMessage session "No tag found. Try again.") w)
    | tag :: _ => spawn tag session w
    end.

Definition isWhitespaceOrNewline (c : ascii) : bool :=
  let n := N_of_ascii c in
  (((9 <=? n) && (n <=? 13)) || (n =? 32) || (n =? 133) || (n =? 160))%N.

Fixpoint isBlank (s : string) : bool :=
  match s with
  | EmptyString => true
  | String c s' => isWhitespaceOrNewline c && isBlank s'
  end.

(** [createNdefMessageForWriting]: the error thrown, or the absolute
    string of the URL the message carries. *)
Definition createNdefMessageForWriting (w : World) : NFCBridgeError + string :=
  match writeUrl (manager w) with
  | None => inl (recordCreation "No URL provided.")
  | Some urlString =>
      if isBlank urlString then inl (recordCreation "No URL provided.")
      else
        match urlAbsoluteString dev urlString with
        | None => inl (invalidUrl ("Invalid URL: " ++ urlString))
        | Some absolute =>
            if wellKnownTypeURIPayload dev absolute then inr absolute
            else inl (recordCreation "Failed to create URI payload.")
        end
  end.

Definition scanSuccess (parsed : option string * option string * option string)
  : NFCResult :=
  let '(u, t, r) := parsed in
  {| success := true; message := "Scan successful."; url := u; text := t;
     raw := r; errorCode := None |}.

(** [processTag], run as one step when its task is scheduled. *)
Definition processTag (tag : Tag) (session : Session) (w : World) : World :=
  let processingError w' :=
    emitAndClose session
      (failureResult ("Failed: " ++ failure tag) "TAG_PROCESSING_ERROR")
      (native (alertMessage session "Failed to process tag.") w') in
  if negb (connects tag) then processingError w
  else
    match queryNDEFStatus tag with
    | None => processingError w
    | Some notSupported =>
        emitAndClose session
          (failureResult "Tag is not NDEF compliant." "TAG_NOT_NDEF")
          (native (alertMessage session "Tag is not NDEF compliant.") w)
    | Some readOnly =>
        match sessionMode (manager w) with
        | scan =>
            match readNDEF tag with
            | Some parsed =>
                emitAndClose session (scanSuccess parsed)
                  (native (alertMessage session "Scan complete!") w)
            | None =>
                emitAndClose session
                  (failureResult ("Failed to read tag: " ++ failure tag) "READ_ERROR")
                  (native (alertMessage session "Tag appears empty or unreadable.") w)
            end
        | write =>
            emitAndClose session
              (failureResult "Tag is read-only; cannot write." "TAG_READ_ONLY")
              (native (alertMessage session "Tag is read-only.") w)
        end
    | Some readWrite =>
        match sessionMode (manager w) with
        | scan =>
            match readNDEF tag with
            | Some parsed =>
                emitAndClose session (scanSuccess parsed)
                  (native (alertMessage session "Scan complete!") w)
            | None =>
                emitAndClose session
                  {| success := true; message := "Tag scanned but appears empty.";
                     url := None; text := None; raw := None; errorCode := None |}
                  (native (alertMessage session "Tag scanned (empty or no NDEF).") w)
            end
        | write =>
            match createNdefMessageForWriting w with
            | inl (recordCreation msg) =>
                emitAndClose session (failureResult msg "RECORD_CREATION_ERROR")
                  (native (alertMessage session "Write failed.") w)
            | inl (invalidUrl msg) =>
                emitAndClose session (failureResult msg "INVALID_URL")
                  (native (alertMessage session "Invalid URL.") w)
            | inr _ =>
                if writeNDEF tag then
                  emitAndClose session
                    {| success := true; message := "Write successful.";
                       url := writeUrl (manager w); text := None; raw := None;
                       errorCode := None |}
                    (native (alertMessage session "Write complete!") w)
                else
                  emitAndClose session
                    (failureResult ("Write failed: " ++ failure tag) "WRITE_ERROR")
                    (native (alertMessage session "Write failed.") w)
            end
        end
    | Some unknownStatus =>
        emitAndClose session
          (failureResult "Unknown NDEF status." "UNKNOWN_NDEF_STATUS")
          (native (alertMessage session "Unknown NDEF status.") w)
    end.

(** Running a queued block. *)
Definition runBlock (b : Block) (w : World) : World :=
  match b with
  | emitBlock jsonStr =>
      let w1 :=
        match resultCallback (manager w) with
        | Some cb =>
            {| manager := manager w; mainQueue := mainQueue w; timers := timers w;
               tasks := tasks w; delivered := delivered w ++ [(cb, jsonStr)];
               nativeCalls := nativeCalls w; nextSession := nextSession w |}
        | None => w
        end in
      upd (setResultCallback None) w1
  | closeBlock s =>
      upd (setIsSessionActive false)
        (upd (setReaderSession None) (native (invalidate s) w))
  | restartBlock s => native (restartPolling s) w
  end.

(** What can happen to the manager: a call from TypeScript, a delegate
    call from CoreNFC, or a queue running the next piece of work. *)
Inductive Event : Type :=
| callScan (callback : Callback)
| callWrite (u : string) (callback : Callback)
| callStop
| invalidated (error : SessionError)
| detectedNDEFs
| detected (session : Session) (tags : list Tag)
| runMain
| runTask
| fireTimer.

Definition setMainQueue (q : list Block) (w : World) : World :=
  {| manager := manager w; mainQueue := q; timers := timers w;
     tasks := tasks w; delivered := delivered w;
     nativeCalls := nativeCalls w; nextSession := nextSession w |}.

Definition setTimers (q : list Block) (w : World) : World :=
  {| manager := manager w; mainQueue := mainQueue w; timers := q;
     tasks := tasks w; delivered := delivered w;
     nativeCalls := nativeCalls w; nextSession := nextSession w |}.

Definition setTasks (q : list (Tag * Session)) (w : World) : World :=
  {| manager := manager w; mainQueue := mainQueue w; timers := timers w;
     tasks := q; delivered := delivered w;
     nativeCalls := nativeCalls w; nextSession := nextSession w |}.

Definition step (w : World) (e : Event) : World :=
  match e with
  | callScan cb => scanWithCallback cb w
  | callWrite u cb => writeWithUrlCallback u cb w
  | callStop => stopSession w
  | invalidated error => didInvalidateWithError error w
  | detectedNDEFs => didDetectNDEFs w
  | detected session tags => didDetect session tags w
  | runMain =>
      match mainQueue w with
      | b :: q => runBlock b (setMainQueue q w)
      | [] => w
      end
  | runTask =>
      match tasks w with
      | (tag, s) :: q => processTag tag s (setTasks q w)
      | [] => w
      end
  | fireTimer =>
      match timers w with
      | b :: q => runBlock b (setTimers q w)
      | [] => w
      end
  end.

Definition run (w : World) (trace : list Event) : World :=
  fold_left step trace w.

End Device.

(** [makeTextPayload], on the UTF-8 bytes of the text and of the
    locale: a well-known record of type "T" whose payload is the status
    byte (the locale's length, six bits), the locale and the text. *)
Definition makeTextPayload (textData langData : list byte) : Ndef.NFCNDEFPayload :=
  let status :=
    match Byte.of_N (N.land (N.of_nat (List.length langData)) 63) with
    | Some b => b
    | None => x00
    end in
  {| Ndef.typeNameFormat := 1;
     Ndef.type := [x54];
     Ndef.identifier := [];
     Ndef.payload := (status :: langData ++ textData)%list |}.

Inductive TypeNameFormat : Type :=
| tnfEmpty
| nfcWellKnown
| media
| absoluteURI
| nfcExternal
| tnfUnknown
| tnfUnchanged.

Definition rawValue (f : TypeNameFormat) : Z :=
  match f with
  | tnfEmpty => 0
  | nfcWellKnown => 1
  | media => 2
  | absoluteURI => 3
  | nfcExternal => 4
  | tnfUnknown => 5
  | tnfUnchanged => 6
  end.

(** A record of a message as [parseNdefMessage] looks at it: its
    format, what CoreNFC's accessors [wellKnownTypeURIPayload] and
    [wellKnownTypeTextPayload] return for it, its payload and its type
    decoded as UTF-8 ([None] when they are not UTF-8), and the number
    of payload bytes. *)
Record RecordView : Type := {
  format : TypeNameFormat;
  uriPayload : option string;
  textPayload : option string * option string;
  payloadUtf8 : option string;
  typeUtf8 : option string;
  payloadCount : nat
}.

(** One turn of the loop of [parseNdefMessage]. *)
Definition parseRecord (acc : option string * option string * list string)
  (record : RecordView) : option string * option string * list string :=
  let '(foundUrl, foundText, rawParts) := acc in
  match format record with
  | nfcWellKnown =>
      let '(foundUrl1, rawParts1) :=
        match uriPayload record with
        | Some s =>
            (match foundUrl with None => Some s | Some _ => foundUrl end,
             (rawParts ++ [("URL=" ++ s)%string])%list)
        | None => (foundUrl, rawParts)
        end in
      match textPayload record with
      | (Some t, Some loc) =>
          (foundUrl1,
           match foundText with None => Some t | Some _ => foundText end,
           (rawParts1 ++ [("TEXT=" ++ t ++ " (locale=" ++ loc ++ ")")%string])%list)
      | _ => (foundUrl1, foundText, rawParts1)
      end
  | absoluteURI =>
      match payloadUtf8 record with
      | Some s =>
          (match foundUrl with None => Some s | Some _ => foundUrl end,
           foundText, (rawParts ++ [("ABS_URI=" ++ s)%string])%list)
      | None => acc
      end
  | media =>
      let typeStr := match typeUtf8 record with Some s => s | None => "media" end in
      match payloadUtf8 record with
      | Some s =>
          (foundUrl, foundText,
           (rawParts ++ [("MEDIA(" ++ typeStr ++ ")=" ++ s)%string])%list)
      | None =>
          (foundUrl, foundText,
           (rawParts ++ [("MEDIA(" ++ typeStr ++ ")=<binary "
                          ++ JS.decimalString (Z.of_nat (payloadCount record))
                          ++ " bytes>")%string])%list)
      end
  | _ =>
      (foundUrl, foundText,
       (rawParts ++ [("OTHER(format=" ++ JS.decimalString (rawValue (format record))
                      ++ ", bytes="
                      ++ JS.decimalString (Z.of_nat (payloadCount record))
                      ++ ")")%string])%list)
  end.

Definition parseNdefMessage (records : list RecordView)
  : option string * option string * option string :=
  let '(foundUrl, foundText, rawParts) := fold_left parseRecord records (None, None, []) in
  (foundUrl, foundText,
   match rawParts with
   | [] => None
   | _ => Some (JS.join " | " rawParts)
   end).

(** How often a callback has been called. *)
Definition deliveries (cb : Callback) (w : World) : nat :=
  List.length (filter (fun d => Nat.eqb (fst d) cb) (delivered w)).

(** The callback an event hands to the manager, if any. *)
Definition registers (e : Event) : option Callback :=
  match e with
  | callScan cb => Some cb
  | callWrite _ cb => Some cb
  | _ => None
  end.

(** The callbacks handed to the manager along a trace, in order. *)
Fixpoint registrations (trace : list Event) : list Callback :=
  match trace with
  | [] => []
  | e :: trace' =>
      match registers e with
      | Some cb => cb :: registrations trace'
      | None => registrations trace'
      end
  end.

(** The events that end a session with a result still owed: a stop
    from TypeScript, or an invalidation for any reason but
    "first tag read". *)
Definition endsSession (e : Event) : bool :=
  match e with
  | callStop => true
  | invalidated (readerError readerSessionInvalidationErrorFirstNDEFTagRead _) => false
  | invalidated _ => true
  | _ => false
  end.

End NFCManager.

(** ** The TypeScript class [Nfc] *)

Module Nfc.

Import JS.

(** The state of a promise when its executor has returned. *)
Inductive settlement (A : Type) : Type :=
| resolved (v : A)
| rejected (reason : string)
| pending.
Arguments resolved {A} v.
Arguments rejected {A} reason.
Arguments pending {A}.

Definition Callback : Type := NFCManager.Callback.
Definition Session : Type := NFCManager.Session.

(** The interface [NFCManagerInstance]: the native object behind
    [nativeManager].  Every call crosses the bridge and may throw. *)
Class NFCManagerInstance (M : Type) : Type := {
  scanWithCallback : Callback -> M -> completion unit * M;
  writeWithUrlCallbackCallback : string -> Callback -> M -> completion unit * M;
  stopSession : M -> completion unit * M;
  isAvailable : M -> completion bool * M;
  getIsSessionActive : M -> completion bool * M
}.

(** The Swift class behind the interface: its methods do not throw. *)
Definition swiftManager (dev : NFCManager.Device)
  : NFCManagerInstance NFCManager.World :=
  {| scanWithCallback cb w := (Normal tt, NFCManager.scanWithCallback dev cb w);
     writeWithUrlCallbackCallback u cb w :=
       (Normal tt, NFCManager.writeWithUrlCallback dev u cb w);
     stopSession w := (Normal tt, NFCManager.stopSession w);
     isAvailable w := (Normal (NFCManager.isAvailable dev w), w);
     getIsSessionActive w := (Normal (NFCManager.getIsSessionActive w), w) |}.

Record UriRecord : Type := { uri : string }.
Record TextRecord : Type := { text : string; languageCode : option string }.

(** [WriteTagOptions]: both lists are optional. *)
Record WriteTagOptions : Type := {
  uriRecords : option (list UriRecord);
  textRecords : option (list TextRecord)
}.

Record NdefListenerOptions : Type := {
  stopAfterFirstRead : bool;
  scanHint : option string
}.

(** What the platform answers: whether [NSObject] instances respond to
    the selector that marks iOS 11, what reading
    [NFCNDEFReaderSession.readingAvailable] gives (it throws when
    CoreNFC is missing), and what creating and beginning a delegate
    session gives. *)
Record Platform : Type := {
  isIOS11OrUp : bool;
  readingAvailable : completion bool;
  beginDelegateSession : completion Session
}.

Section Facade.

Context {M : Type} {native : NFCManagerInstance M}.
Variable platform : Platform.

(** The fields of [Nfc], the sessions it has invalidated, and the
    number of callback closures it has created. *)
Record Nfc : Type := {
  session : option Session;
  nativeManager : option M;
  invalidatedSessions : list Session;
  closures : Callback
}.

Definition setNativeManager (m : M) (nfc : Nfc) : Nfc :=
  {| session := session nfc; nativeManager := Some m;
     invalidatedSessions := invalidatedSessions nfc; closures := closures nfc |}.

Definition _available : bool :=
  if isIOS11OrUp platform then
    match readingAvailable platform with
    | Normal b => b
    | Throw _ => false
    end
  else false.

Definition available (nfc : Nfc) : settlement bool * Nfc :=
  match nativeManager nfc with
  | Some m =>
      match isAvailable m with
      | (Normal b, m') => (resolved b, setNativeManager m' nfc)
      | (Throw _, m') => (resolved _available, setNativeManager m' nfc)
      end
  | None => (resolved _available, nfc)
  end.

Definition enabled (nfc : Nfc) : settlement bool * Nfc := available nfc.

Definition invalidateSession (nfc : Nfc) : Nfc :=
  let nfc1 :=
    match nativeManager nfc with
    | Some m => setNativeManager (snd (stopSession m)) nfc
    | None => nfc
    end in
  match session nfc1 with
  | Some s =>
      {| session := None; nativeManager := nativeManager nfc1;
         invalidatedSessions := invalidatedSessions nfc1 ++ [s];
         closures := closures nfc1 |}
  | None => nfc1
  end.

Definition stopListening (nfc : Nfc) : settlement bool * Nfc :=
  (resolved true, invalidateSession nfc).

(** [setOnNdefDiscoveredListener]; [callback] is [None] for [null]. *)
Definition setOnNdefDiscoveredListener (callback : option Callback)
  (options : option NdefListenerOptions) (nfc : Nfc) : settlement bool * Nfc :=
  if negb _available then (rejected "NFC not available", nfc)
  else
    match callback with
    | None => (resolved true, invalidateSession nfc)
    | Some _ =>
        let fallback nfc' :=
          match beginDelegateSession platform with
          | Normal s =>
              (resolved true,
               {| session := Some s; nativeManager := nativeManager nfc';
                  invalidatedSessions := invalidatedSessions nfc';
                  closures := closures nfc' |})
          | Throw e => (rejected e, nfc')
          end in
        match nativeManager nfc with
        | Some m =>
            let nfc1 :=
              {| session := session nfc; nativeManager := nativeManager nfc;
                 invalidatedSessions := invalidatedSessions nfc;
                 closures := S (closures nfc) |} in
            match scanWithCallback (closures nfc) m with
            | (Normal _, m') => (resolved true, setNativeManager m' nfc1)
            | (Throw _, m') => fallback (setNativeManager m' nfc1)
            end
        | None => fallback nfc
        end
    end.

(** [stringToHex], on a string whose code units are below 256 (the
    strings of this model): each [charCodeAt(i).toString(16)] then has
    one or two digits.  A code unit of 256 or more would give three or
    four digits; such strings are outside the model. *)
Fixpoint stringToHex (str : string) : string :=
  match str with
  | EmptyString => EmptyString
  | String c str' =>
      padStart (toString16 (N_of_ascii c)) 2 "0" ++ stringToHex str'
  end.

(** A record as [parseResultToNdefRecords] builds it: [id] is an
    array and [payload] the text itself. *)
Record ResultRecord : Type := {
  rid : list Z;
  rtnf : Z;
  rtype : Z;
  rpayload : string;
  rpayloadAsHexString : string;
  rpayloadAsStringWithPrefix : string;
  rpayloadAsString : string
}.

Definition resultRecord (type : Z) (s : string) : ResultRecord :=
  {| rid := []; rtnf := 1; rtype := type; rpayload := s;
     rpayloadAsHexString := stringToHex s;
     rpayloadAsStringWithPrefix := s; rpayloadAsString := s |}.

(** [if (result.url)]: present and not empty. *)
Definition truthy (v : option string) : bool := negb (falsy v).

(** [parseResultToNdefRecords], on a result whose [url] and [text]
    have code units below 256. *)
Definition parseResultToNdefRecords (result : NFCManager.NFCResult)
  : list ResultRecord :=
  let records1 :=
    match NFCManager.url result with
    | Some u => if truthy (Some u) then [resultRecord 85 u] else []
    | None => []
    end in
  let records2 :=
    match NFCManager.text result with
    | Some t => if truthy (Some t) then [resultRecord 84 t] else []
    | None => []
    end in
  (records1 ++ records2)%list.

(** The closure [setOnNdefDiscoveredListener] hands to the native
    manager: the data the listener is called with, [None] when the
    listener is not called. *)
Definition scanCallback (result : NFCManager.NFCResult) : option (list ResultRecord) :=
  if NFCManager.success result then Some (parseResultToNdefRecords result)
  else None.

(** The value [writeTag] resolves with. *)
Record WriteOutcome : Type := { writeMessage : string }.

(** [arg.uriRecords && arg.uriRecords.length > 0] and the like. *)
Definition nonEmpty {A : Type} (l : option (list A)) : bool :=
  match l with
  | Some (_ :: _) => true
  | _ => false
  end.

Definition writeTag (arg : WriteTagOptions) (nfc : Nfc)
  : settlement WriteOutcome * Nfc :=
  match nativeManager nfc with
  | None => (rejected "NFC write not available - native manager not initialized", nfc)
  | Some m =>
      let urlToWrite :=
        if nonEmpty (uriRecords arg) then
          match uriRecords arg with
          | Some (r :: _) => Some (uri r)
          | _ => None
          end
        else None in
      if negb (nonEmpty (uriRecords arg)) && nonEmpty (textRecords arg) then
        (rejected "Writing text records not supported. Please provide a URI record.",
         nfc)
      else
        match urlToWrite with
        | None => (rejected "No URI record provided for writing", nfc)
        | Some u =>
            if String.eqb u "" then (rejected "No URI record provided for writing", nfc)
            else
              let nfc1 :=
                {| session := session nfc; nativeManager := nativeManager nfc;
                   invalidatedSessions := invalidatedSessions nfc;
                   closures := S (closures nfc) |} in
              match writeWithUrlCallbackCallback u (closures nfc) m with
              | (Normal _, m') => (pending, setNativeManager m' nfc1)
              | (Throw e, m') => (rejected ("Write error: " ++ e), setNativeManager m' nfc1)
              end
        end
  end.

(** The closure [writeTag] hands to the native manager: how the promise
    settles when the native result arrives. *)
Definition writeTagCallback (result : NFCManager.NFCResult) : settlement WriteOutcome :=
  if NFCManager.success result
  then resolved {| writeMessage := NFCManager.message result |}
  else rejected (NFCManager.message result).

Definition eraseTag (nfc : Nfc) : settlement bool * Nfc :=
  (rejected "Erase tag not available on iOS", nfc).

End Facade.

Arguments Nfc M : clear implicits.

End Nfc.

(** ** The specification's vocabulary *)

Module Spec.

(** Modelled from the spec: the table [NfcUriProtocols] of [./common],
    which is not among the sources.  The spec gives entries 0 to 4 and
    refers to the NFC Forum URI Record Type Definition for the rest. *)
Definition NfcUriProtocols : list string :=
  [ ""; "http://www."; "https://www."; "http://"; "https://"; "tel:";
    "mailto:"; "ftp://anonymous:anonymous@"; "ftp://ftp."; "ftps://";
    "sftp://"; "smb://"; "nfs://"; "ftp://"; "dav://"; "news:";
    "telnet://"; "imap:"; "rtsp://"; "urn:"; "pop:"; "sip:"; "sips:";
    "tftp:"; "btspp://"; "btl2cap://"; "btgoep://"; "tcpobex://";
    "irdaobex://"; "file://"; "urn:epc:id:"; "urn:epc:tag:";
    "urn:epc:pat:"; "urn:epc:raw:"; "urn:epc:"; "urn:nfc:" ].

(** The bytes of a text, one per character. *)
Definition bytesOf (s : string) : list byte :=
  map byte_of_ascii (list_ascii_of_string s).

(** The text of a byte sequence, one character per byte. *)
Fixpoint textOf (l : list byte) : string :=
  match l with
  | [] => EmptyString
  | b :: l' => String (ascii_of_byte b) (textOf l')
  end.

Definition nibble (n : N) : ascii :=
  match get (N.to_nat n) "0123456789abcdef" with
  | Some c => c
  | None => "?"%char
  end.

(** The lower-case hexadecimal encoding: two digits per byte, the high
    four bits first. *)
Fixpoint lowercaseHex (l : list byte) : string :=
  match l with
  | [] => EmptyString
  | b :: l' =>
      String (nibble (Byte.to_N b / 16))
        (String (nibble (Byte.to_N b mod 16)) (lowercaseHex l'))
  end.

(** The language-code length of a Text record: the low six bits of
    the first payload byte. *)
Definition languageCodeLength (status : byte) : nat :=
  N.to_nat (N.land (Byte.to_N status) 63).

(** A string without its first [n] characters. *)
Fixpoint dropLeading (n : nat) (s : string) : string :=
  match n, s with
  | O, _ => s
  | S n', String _ s' => dropLeading n' s'
  | S _, EmptyString => EmptyString
  end.

(** The prefix the table gives for a prefix code, empty when the code
    is beyond the table. *)
Definition uriPrefix (table : list string) (code : byte) : string :=
  nth (N.to_nat (Byte.to_N code)) table "".

(** A well-known record of type "U" (URI) and one of type "T" (Text)
    with the given payload. *)
Definition uriRecord (payload : list byte) : Ndef.NFCNDEFPayload :=
  {| Ndef.typeNameFormat := 1; Ndef.type := bytesOf "U";
     Ndef.identifier := []; Ndef.payload := payload |}.

Definition textRecord (payload : list byte) : Ndef.NFCNDEFPayload :=
  {| Ndef.typeNameFormat := 1; Ndef.type := bytesOf "T";
     Ndef.identifier := []; Ndef.payload := payload |}.

(** A device with NFC on which every URL parses. *)
Definition capableDevice : NFCManager.Device :=
  {| NFCManager.readingAvailable := true;
     NFCManager.sessionCreated := true;
     NFCManager.urlAbsoluteString := fun u => Some u;
     NFCManager.wellKnownTypeURIPayload := fun _ => true |}.

(** The static probe does not report NFC: the system is older than
    iOS 11, or reading [readingAvailable] throws (CoreNFC is missing),
    or it answers false. *)
Definition staticProbeSilent (p : Nfc.Platform) : Prop :=
  Nfc.isIOS11OrUp p = false \/
  (exists e, Nfc.readingAvailable p = JS.Throw e) \/
  Nfc.readingAvailable p = JS.Normal false.

(** NFC is absent as far as the probes tell: the native manager
    answers false, or it is missing or throws and the static probe
    does not report NFC. *)
Definition nfcAbsent {M : Type} {native : Nfc.NFCManagerInstance M}
  (p : Nfc.Platform) (nfc : Nfc.Nfc M) : Prop :=
  match Nfc.nativeManager nfc with
  | Some m =>
      match fst (Nfc.isAvailable m) with
      | JS.Normal b => b = false
      | JS.Throw _ => staticProbeSilent p
      end
  | None => staticProbeSilent p
  end.

(** An [Nfc] object whose native manager class was not found. *)
Definition nfcWithoutManager : Nfc.Nfc NFCManager.World :=
  {| Nfc.session := None; Nfc.nativeManager := None;
     Nfc.invalidatedSessions := []; Nfc.closures := O |}.

(** A fresh [Nfc] object holding a fresh native manager. *)
Definition freshNfc : Nfc.Nfc NFCManager.World :=
  {| Nfc.session := None; Nfc.nativeManager := Some NFCManager.initWorld;
     Nfc.invalidatedSessions := []; Nfc.closures := O |}.

(** A platform without CoreNFC: reading [readingAvailable] throws. *)
Definition platformWithoutCoreNFC : Nfc.Platform :=
  {| Nfc.isIOS11OrUp := true;
     Nfc.readingAvailable := JS.Throw "ReferenceError";
     Nfc.beginDelegateSession := JS.Throw "ReferenceError" |}.

(** Nothing to stop: no delegate session, and a native manager (if
    any) that holds no session and owes no result. *)
Definition nothingToStop (nfc : Nfc.Nfc NFCManager.World) : Prop :=
  Nfc.session nfc = None /\
  match Nfc.nativeManager nfc with
  | Some w =>
      NFCManager.readerSession (NFCManager.manager w) = None /\
      NFCManager.isSessionActive (NFCManager.manager w) = false /\
      (NFCManager.resultCallback (NFCManager.manager w) = None \/
       NFCManager.hasEmittedResult (NFCManager.manager w) = true)
  | None => True
  end.

(** A result carries an error code exactly when it reports a failure. *)
Definition coded (r : NFCManager.NFCResult) : bool :=
  if NFCManager.success r
  then match NFCManager.errorCode r with None => true | Some _ => false end
  else match NFCManager.errorCode r with None => false | Some _ => true end.

Definition codedBlock (b : NFCManager.Block) : Prop :=
  match b with
  | NFCManager.emitBlock r => coded r = true
  | _ => True
  end.

(** Every result queued or delivered so far has an error code exactly
    when it reports a failure. *)
Definition codedWorld (w : NFCManager.World) : Prop :=
  Forall codedBlock (NFCManager.mainQueue w) /\
  Forall codedBlock (NFCManager.timers w) /\
  Forall (fun d => coded (snd d) = true) (NFCManager.delivered w).

(** The first value a function finds along a list. *)
Fixpoint firstSome {A B : Type} (f : A -> option B) (l : list A) : option B :=
  match l with
  | [] => None
  | x :: l' => match f x with Some y => Some y | None => firstSome f l' end
  end.

(** The URL a record offers: the URI of a well-known record, the
    payload text of an absolute-URI record. *)
Definition recordUrl (r : NFCManager.RecordView) : option string :=
  match NFCManager.format r with
  | NFCManager.nfcWellKnown => NFCManager.uriPayload r
  | NFCManager.absoluteURI => NFCManager.payloadUtf8 r
  | _ => None
  end.

(** The text a record offers: that of a well-known text record with a
    locale. *)
Definition recordText (r : NFCManager.RecordView) : option string :=
  match NFCManager.format r with
  | NFCManager.nfcWellKnown =>
      match NFCManager.textPayload r with
      | (Some t, Some _) => Some t
      | _ => None
      end
  | _ => None
  end.

End Spec.

(** * Theorems *)

(** ** The record decoder *)

Lemma hex2_nibbles (b : byte) :
  Ndef.hex2 b =
  String (Spec.nibble (Byte.to_N b / 16))
    (String (Spec.nibble (Byte.to_N b mod 16)) "").
Proof. destruct b; reflexivity. Qed.

Lemma join_empty_cons (x : string) (l : list string) :
  JS.join "" (x :: l) = x ++ JS.join "" l.
Proof.
  destruct l as [| y l]; simpl.
  - induction x; simpl; congruence.
  - reflexivity.
Qed.

Lemma buf2hexString_lowercaseHex (l : list byte) :
  Ndef.buf2hexString l = Spec.lowercaseHex l.
Proof.
  unfold Ndef.buf2hexString.
  induction l as [| b l IH].
  - reflexivity.
  - cbn [map]. rewrite join_empty_cons, IH, hex2_nibbles. reflexivity.
Qed.

Lemma hex2a_hex2 (b : byte) (rest : string) :
  Ndef.hex2a (Ndef.hex2 b ++ rest) = String (ascii_of_byte b) (Ndef.hex2a rest).
Proof. destruct b; reflexivity. Qed.

Lemma nsdataToASCIIString_textOf (l : list byte) :
  Ndef.nsdataToASCIIString l = Spec.textOf l.
Proof.
  unfold Ndef.nsdataToASCIIString, Ndef.nsdataToHexString, Ndef.buf2hexString.
  induction l as [| b l IH].
  - reflexivity.
  - cbn [map]. rewrite join_empty_cons, hex2a_hex2, IH. reflexivity.
Qed.

Lemma substring_all (s : string) : String.substring 0 (String.length s) s = s.
Proof. induction s; simpl; congruence. Qed.

Lemma substring_dropLeading (n : nat) (s : string) :
  String.substring n (String.length s - n) s = Spec.dropLeading n s.
Proof.
  revert n; induction s as [| c s IH]; intros [| n]; simpl; try reflexivity.
  - f_equal. apply substring_all.
  - apply IH.
Qed.

Lemma dropLeading_beyond (n : nat) (s : string) :
  (String.length s <= n)%nat -> Spec.dropLeading n s = "".
Proof.
  revert n; induction s as [| c s IH]; intros [| n] H; simpl in *;
    try reflexivity; try lia.
  apply IH; lia.
Qed.

Lemma js_substring_dropLeading (s : string) (k : nat) :
  JS.substring s (JS.Num (Z.of_nat k)) = Spec.dropLeading k s.
Proof.
  unfold JS.substring.
  destruct (Nat.le_gt_cases k (String.length s)) as [H | H].
  - replace (Z.min (Z.max (Z.of_nat k) 0) (Z.of_nat (String.length s)))
      with (Z.of_nat k) by lia.
    rewrite Nat2Z.id.
    replace (Z.to_nat (Z.of_nat (String.length s) - Z.of_nat k))
      with (String.length s - k)%nat by lia.
    apply substring_dropLeading.
  - replace (Z.min (Z.max (Z.of_nat k) 0) (Z.of_nat (String.length s)))
      with (Z.of_nat (String.length s)) by lia.
    rewrite Nat2Z.id, Z.sub_diag. cbn [Z.to_nat].
    rewrite (dropLeading_beyond k s) by lia.
    replace 0%nat with (String.length s - String.length s)%nat by lia.
    rewrite substring_dropLeading. apply dropLeading_beyond; lia.
Qed.

Lemma js_slice_1 (s : string) : JS.slice s 1 = Spec.dropLeading 1 s.
Proof.
  rewrite <- (js_substring_dropLeading s 1).
  unfold JS.slice, JS.substring. cbn [Z.ltb Z.compare Z.of_nat].
  replace (Z.min 1 (Z.of_nat (String.length s)))
    with (Z.min (Z.max (Z.of_nat 1) 0) (Z.of_nat (String.length s))) by lia.
  reflexivity.
Qed.

Lemma rtype_recordToJSON (tbl : list string) (r : Ndef.NFCNDEFPayload) :
  Ndef.rtype (Ndef.recordToJSON tbl r) =
  Ndef.hexToDec (hd_error (Ndef.nsdataToHexArray (Ndef.type r))).
Proof. reflexivity. Qed.

Lemma payloadAsStringWithPrefix_textOf (tbl : list string) (r : Ndef.NFCNDEFPayload) :
  Ndef.payloadAsStringWithPrefix (Ndef.recordToJSON tbl r) = Spec.textOf (Ndef.payload r).
Proof. cbn. apply nsdataToASCIIString_textOf. Qed.


(** C4: for every record, whatever its type, [payloadAsHexString] is
    the lower-case hexadecimal encoding of the raw payload, two digits
    per byte. *)
Theorem payloadAsHexString_lowercase_hex (tbl : list string) (r : Ndef.NFCNDEFPayload) :
  Ndef.payloadAsHexString (Ndef.recordToJSON tbl r) = Spec.lowercaseHex (Ndef.payload r).
Proof. cbn. apply buf2hexString_lowercaseHex. Qed.

Lemma status_below_10_read_as_length (b : byte) :
  (Byte.to_N b < 10)%N ->
  JS.num_add (JS.unaryPlus (Some (Ndef.hex2 b))) (JS.Num 1)
  = JS.Num (Z.of_nat (Spec.languageCodeLength b + 1)).
Proof.
  intros Hb. destruct b; try reflexivity; vm_compute in Hb; discriminate.
Qed.

(** A Text record whose status byte is below ten: the decoder removes
    the status byte and the language code, as the record type
    definition asks. *)
Lemma text_record_status_below_10 (tbl : list string) (r : Ndef.NFCNDEFPayload)
  (b : byte) (rest : list byte) :
  Ndef.rtype (Ndef.recordToJSON tbl r) = Some 84 ->
  Ndef.payload r = b :: rest ->
  (Byte.to_N b < 10)%N ->
  Ndef.payloadAsString (Ndef.recordToJSON tbl r) =
  Spec.dropLeading (Spec.languageCodeLength b + 1)
    (Ndef.payloadAsStringWithPrefix (Ndef.recordToJSON tbl r)).
Proof.
  intros Ht Hp Hb. rewrite rtype_recordToJSON in Ht.
  unfold Ndef.recordToJSON. cbn [Ndef.payloadAsString Ndef.payloadAsStringWithPrefix].
  rewrite Ht, Hp. cbn [Ndef.nsdataToHexArray Ndef.buf2hexArray map hd_error].
  rewrite <- js_substring_dropLeading. f_equal.
  apply status_below_10_read_as_length, Hb.
Qed.

(** C3, where the code departs from it: a Text record whose language
    code has ten characters (status byte 0x0a).  The low six bits of
    the status byte are 10 and removing 11 characters leaves "Hi", but
    the decoder reads the hexadecimal text "0a" of the byte as a
    number, gets NaN, and removes nothing. *)
Theorem text_record_language_code_of_ten_kept :
  let r := Spec.textRecord (x0a :: Spec.bytesOf "zh-Hans-CNHi") in
  let decoded := Ndef.recordToJSON Spec.NfcUriProtocols r in
  Ndef.rtype decoded = Some 84 /\
  Spec.languageCodeLength x0a = 10%nat /\
  Spec.dropLeading (Spec.languageCodeLength x0a + 1)
    (Ndef.payloadAsStringWithPrefix decoded) = "Hi" /\
  Ndef.payloadAsString decoded = Ndef.payloadAsStringWithPrefix decoded /\
  Ndef.payloadAsString decoded <> "Hi".
Proof. vm_compute. repeat split; discriminate. Qed.

(** Indexing the prefix table with the hexadecimal text of a byte
    below 16 finds nothing, whatever the table holds: the text starts
    with "0" and has two characters, so it is no array index. *)
Lemma uri_prefix_lookup_misses_below_16 (tbl : list string) (b : byte) :
  (Byte.to_N b < 16)%N ->
  JS.arrayGet tbl (Some (Ndef.hex2 b)) = None.
Proof.
  intros Hb. destruct b; try reflexivity; vm_compute in Hb; discriminate.
Qed.

(** A URI record whose prefix code is below 16 decodes to the rest of
    the payload with no prefix. *)
Lemma uri_record_code_below_16 (tbl : list string) (r : Ndef.NFCNDEFPayload)
  (b : byte) (rest : list byte) :
  Ndef.rtype (Ndef.recordToJSON tbl r) = Some 85 ->
  Ndef.payload r = b :: rest ->
  (Byte.to_N b < 16)%N ->
  Ndef.payloadAsString (Ndef.recordToJSON tbl r) = Spec.textOf rest.
Proof.
  intros Ht Hp Hb. rewrite rtype_recordToJSON in Ht.
  unfold Ndef.recordToJSON. cbn [Ndef.payloadAsString].
  rewrite Ht, Hp. cbn [Ndef.nsdataToHexArray Ndef.buf2hexArray map hd_error].
  rewrite uri_prefix_lookup_misses_below_16 by assumption.
  cbn [JS.falsy]. rewrite js_slice_1, nsdataToASCIIString_textOf. reflexivity.
Qed.

(** C2, where the code departs from it: the URI record with prefix
    code 0x02 and the text "example.com".  Entry 2 of the table is
    "https://www.", but the decoder indexes the table with the text
    "02", finds nothing, and returns "example.com" alone. *)
Theorem uri_record_prefix_code_2_not_expanded :
  let r := Spec.uriRecord (x02 :: Spec.bytesOf "example.com") in
  let decoded := Ndef.recordToJSON Spec.NfcUriProtocols r in
  Ndef.rtype decoded = Some 85 /\
  Spec.uriPrefix Spec.NfcUriProtocols x02 = "https://www." /\
  Ndef.payloadAsString decoded = "example.com" /\
  Ndef.payloadAsString decoded <>
    Spec.uriPrefix Spec.NfcUriProtocols x02 ++ "example.com".
Proof. vm_compute. repeat split; discriminate. Qed.

(** C8 as stated fails: a Text record with an empty payload is decoded
    to an ordinary record with empty strings; the call does not end in
    an error. *)
Lemma empty_text_payload_decodes_without_error :
  Ndef.recordToJSON_call Spec.NfcUriProtocols (Spec.textRecord []) =
    JS.Normal {| Ndef.tnf := 1; Ndef.rtype := Some 84; Ndef.id := "[]";
                 Ndef.rpayload := "[]"; Ndef.payloadAsHexString := "";
                 Ndef.payloadAsStringWithPrefix := "";
                 Ndef.payloadAsString := "" |} /\
  ~ (exists e, Ndef.recordToJSON_call Spec.NfcUriProtocols (Spec.textRecord [])
               = JS.Throw e).
Proof.
  split.
  - reflexivity.
  - intros [e H]. discriminate H.
Qed.

(** C8 as amended: the decoder is pure and deterministic and completes
    normally on every input: for every record the call returns a
    record (its hexadecimal string and its text are those of the
    payload bytes), and records with equal bytes give equal results.
    For a Text or URI record with an empty payload it neither crashes
    nor reports a decode error: it returns a record whose
    [payloadAsString], [payloadAsStringWithPrefix] and
    [payloadAsHexString] are empty and whose [payload] is "[]". *)
Theorem recordToJSON_empty_payload (tbl : list string) (r : Ndef.NFCNDEFPayload) :
  (exists decoded,
      Ndef.recordToJSON_call tbl r = JS.Normal decoded /\
      Ndef.tnf decoded = Ndef.typeNameFormat r /\
      Ndef.payloadAsHexString decoded = Spec.lowercaseHex (Ndef.payload r) /\
      Ndef.payloadAsStringWithPrefix decoded = Spec.textOf (Ndef.payload r)) /\
  (forall r',
      Ndef.typeNameFormat r' = Ndef.typeNameFormat r ->
      Ndef.type r' = Ndef.type r ->
      Ndef.identifier r' = Ndef.identifier r ->
      Ndef.payload r' = Ndef.payload r ->
      Ndef.recordToJSON_call tbl r' = Ndef.recordToJSON_call tbl r) /\
  (Ndef.rtype (Ndef.recordToJSON tbl r) = Some 84 \/
   Ndef.rtype (Ndef.recordToJSON tbl r) = Some 85 ->
   Ndef.payload r = [] ->
   exists decoded,
     Ndef.recordToJSON_call tbl r = JS.Normal decoded /\
     Ndef.payloadAsString decoded = "" /\
     Ndef.payloadAsStringWithPrefix decoded = "" /\
     Ndef.payloadAsHexString decoded = "" /\
     Ndef.rpayload decoded = "[]").
Proof.
  split; [| split].
  - exists (Ndef.recordToJSON tbl r). split; [reflexivity |]. split; [reflexivity |].
    split.
    + cbn. apply buf2hexString_lowercaseHex.
    + apply payloadAsStringWithPrefix_textOf.
  - intros r' H1 H2 H3 H4. destruct r, r'; cbn in *; subst; reflexivity.
  - intros Htype Hpayload.
    exists (Ndef.recordToJSON tbl r). split; [reflexivity |].
    rewrite !rtype_recordToJSON in Htype.
    unfold Ndef.recordToJSON.
    cbn [Ndef.payloadAsString Ndef.payloadAsStringWithPrefix
         Ndef.payloadAsHexString Ndef.rpayload].
    rewrite Hpayload.
    destruct Htype as [Ht | Ht]; rewrite Ht; repeat split; reflexivity.
Qed.

Lemma recordToJSON_empty_payload_witness :
  exists decoded,
    Ndef.recordToJSON_call Spec.NfcUriProtocols (Spec.uriRecord []) = JS.Normal decoded /\
    Ndef.payloadAsString decoded = "" /\
    Ndef.payloadAsStringWithPrefix decoded = "" /\
    Ndef.payloadAsHexString decoded = "" /\
    Ndef.rpayload decoded = "[]".
Proof.
  destruct (recordToJSON_empty_payload Spec.NfcUriProtocols (Spec.uriRecord []))
    as (_ & _ & H).
  apply H.
  - right. reflexivity.
  - reflexivity.
Defined.

(** ** The session manager: which callback is called, and how often *)

Section ManagerFacts.

Import NFCManager.

Variable dev : Device.

Lemma emitResult_delivered r w : delivered (emitResult r w) = delivered w.
Proof. unfold emitResult. destruct (hasEmittedResult (manager w)); reflexivity. Qed.

Lemma emitResult_callback r w :
  resultCallback (manager (emitResult r w)) = resultCallback (manager w).
Proof. unfold emitResult. destruct (hasEmittedResult (manager w)); reflexivity. Qed.

Lemma emitResultIfNeeded_delivered r w :
  delivered (emitResultIfNeeded r w) = delivered w.
Proof.
  unfold emitResultIfNeeded. destruct (hasEmittedResult (manager w));
    [reflexivity | apply emitResult_delivered].
Qed.

Lemma emitResultIfNeeded_callback r w :
  resultCallback (manager (emitResultIfNeeded r w)) = resultCallback (manager w).
Proof.
  unfold emitResultIfNeeded. destruct (hasEmittedResult (manager w));
    [reflexivity | apply emitResult_callback].
Qed.

Lemma emitAndClose_delivered s r w : delivered (emitAndClose s r w) = delivered w.
Proof. unfold emitAndClose. cbn [asyncAfter delivered]. apply emitResult_delivered. Qed.

Lemma emitAndClose_callback s r w :
  resultCallback (manager (emitAndClose s r w)) = resultCallback (manager w).
Proof. unfold emitAndClose. cbn [asyncAfter manager]. apply emitResult_callback. Qed.

Lemma startSession_delivered mode w :
  delivered (startSession dev mode w) = delivered w.
Proof.
  unfold startSession.
  destruct (readingAvailable dev); cbn [negb].
  - destruct (sessionCreated dev), (readerSession (manager w)); reflexivity.
  - rewrite emitResult_delivered. destruct (readerSession (manager w)); reflexivity.
Qed.

Lemma startSession_callback mode w :
  resultCallback (manager (startSession dev mode w)) = resultCallback (manager w).
Proof.
  unfold startSession.
  destruct (readingAvailable dev); cbn [negb].
  - destruct (sessionCreated dev), (readerSession (manager w)); reflexivity.
  - rewrite emitResult_callback. destruct (readerSession (manager w)); reflexivity.
Qed.

Lemma stopSession_delivered w : delivered (stopSession w) = delivered w.
Proof.
  unfold stopSession, cleanupSession.
  destruct (negb (hasEmittedResult (manager w)) &&
            match resultCallback (manager w) with Some _ => true | None => false end).
  - destruct (readerSession (manager (emitResult _ w))); cbn; apply emitResult_delivered.
  - destruct (readerSession (manager w)); reflexivity.
Qed.

Lemma stopSession_callback w :
  resultCallback (manager (stopSession w)) = resultCallback (manager w).
Proof.
  unfold stopSession, cleanupSession.
  destruct (negb (hasEmittedResult (manager w)) &&
            match resultCallback (manager w) with Some _ => true | None => false end).
  - destruct (readerSession (manager (emitResult _ w))); cbn; apply emitResult_callback.
  - destruct (readerSession (manager w)); reflexivity.
Qed.

Lemma didInvalidateWithError_delivered error w :
  delivered (didInvalidateWithError error w) = delivered w.
Proof.
  unfold didInvalidateWithError.
  destruct error as [[] desc | desc]; rewrite ?emitResultIfNeeded_delivered; reflexivity.
Qed.

Lemma didInvalidateWithError_callback error w :
  resultCallback (manager (didInvalidateWithError error w)) = resultCallback (manager w).
Proof.
  unfold didInvalidateWithError.
  destruct error as [[] desc | desc]; rewrite ?emitResultIfNeeded_callback; reflexivity.
Qed.

Lemma didDetect_delivered s tags w : delivered (didDetect s tags w) = delivered w.
Proof.
  unfold didDetect. destruct (1 <? List.length tags)%nat; [reflexivity |].
  destruct tags; reflexivity.
Qed.

Lemma didDetect_callback s tags w :
  resultCallback (manager (didDetect s tags w)) = resultCallback (manager w).
Proof.
  unfold didDetect. destruct (1 <? List.length tags)%nat; [reflexivity |].
  destruct tags; reflexivity.
Qed.

Lemma processTag_delivered tag s w : delivered (processTag dev tag s w) = delivered w.
Proof.
  unfold processTag.
  destruct (connects tag); cbn [negb]; [| rewrite emitAndClose_delivered; reflexivity].
  destruct (queryNDEFStatus tag) as [[] |];
    try (rewrite emitAndClose_delivered; reflexivity).
  - destruct (sessionMode (manager w)).
    + destruct (readNDEF tag); rewrite emitAndClose_delivered; reflexivity.
    + destruct (createNdefMessageForWriting dev w) as [[] |];
        try (rewrite emitAndClose_delivered; reflexivity).
      destruct (writeNDEF tag); rewrite emitAndClose_delivered; reflexivity.
  - destruct (sessionMode (manager w)).
    + destruct (readNDEF tag); rewrite emitAndClose_delivered; reflexivity.
    + rewrite emitAndClose_delivered; reflexivity.
Qed.

Lemma processTag_callback tag s w :
  resultCallback (manager (processTag dev tag s w)) = resultCallback (manager w).
Proof.
  unfold processTag.
  destruct (connects tag); cbn [negb]; [| rewrite emitAndClose_callback; reflexivity].
  destruct (queryNDEFStatus tag) as [[] |];
    try (rewrite emitAndClose_callback; reflexivity).
  - destruct (sessionMode (manager w)).
    + destruct (readNDEF tag); rewrite emitAndClose_callback; reflexivity.
    + destruct (createNdefMessageForWriting dev w) as [[] |];
        try (rewrite emitAndClose_callback; reflexivity).
      destruct (writeNDEF tag); rewrite emitAndClose_callback; reflexivity.
  - destruct (sessionMode (manager w)).
    + destruct (readNDEF tag); rewrite emitAndClose_callback; reflexivity.
    + rewrite emitAndClose_callback; reflexivity.
Qed.

(** What one block does to the callback and to the calls made. *)
Lemma runBlock_effect b w :
  (delivered (runBlock b w) = delivered w /\
   resultCallback (manager (runBlock b w)) = resultCallback (manager w)) \/
  (resultCallback (manager (runBlock b w)) = None /\
   match resultCallback (manager w) with
   | Some cb => exists r, delivered (runBlock b w) = (delivered w ++ [(cb, r)])%list
   | None => delivered (runBlock b w) = delivered w
   end).
Proof.
  destruct b as [r | s | s]; cbn [runBlock].
  - right. split.
    + reflexivity.
    + destruct (resultCallback (manager w)); [exists r |]; reflexivity.
  - left. split; reflexivity.
  - left. split; reflexivity.
Qed.

(** What one event does to the callback and to the calls made: a call
    from TypeScript installs its callback and calls nothing; any other
    event either leaves both alone, or clears the callback after
    calling it at most once. *)
Lemma step_effect w e :
  match registers e with
  | Some cb =>
      delivered (step dev w e) = delivered w /\
      resultCallback (manager (step dev w e)) = Some cb
  | None =>
      (delivered (step dev w e) = delivered w /\
       resultCallback (manager (step dev w e)) = resultCallback (manager w)) \/
      (resultCallback (manager (step dev w e)) = None /\
       match resultCallback (manager w) with
       | Some cb => exists r, delivered (step dev w e) = (delivered w ++ [(cb, r)])%list
       | None => delivered (step dev w e) = delivered w
       end)
  end.
Proof.
  destruct e; cbn [registers step].
  - unfold scanWithCallback. rewrite startSession_delivered, startSession_callback.
    split; reflexivity.
  - unfold writeWithUrlCallback. rewrite startSession_delivered, startSession_callback.
    split; reflexivity.
  - left. split; [apply stopSession_delivered | apply stopSession_callback].
  - left. split; [apply didInvalidateWithError_delivered
                 | apply didInvalidateWithError_callback].
  - left. split; reflexivity.
  - left. split; [apply didDetect_delivered | apply didDetect_callback].
  - destruct (mainQueue w) as [| b q]; [left; split; reflexivity |].
    apply (runBlock_effect b (setMainQueue q w)).
  - destruct (tasks w) as [| [tag s] q]; [left; split; reflexivity |].
    left. rewrite processTag_delivered, processTag_callback. split; reflexivity.
  - destruct (timers w) as [| b q]; [left; split; reflexivity |].
    apply (runBlock_effect b (setTimers q w)).
Qed.

End ManagerFacts.

Section ManagerTraces.

Import NFCManager.

Variable dev : Device.

Lemma deliveries_same (cb : Callback) (w w' : World) :
  delivered w' = delivered w -> deliveries cb w' = deliveries cb w.
Proof. unfold deliveries. intros ->. reflexivity. Qed.

Lemma deliveries_snoc (cb c : Callback) (r : NFCResult) (w w' : World) :
  delivered w' = (delivered w ++ [(c, r)])%list ->
  deliveries cb w' = (deliveries cb w + if Nat.eqb c cb then 1 else 0)%nat.
Proof.
  unfold deliveries. intros ->. rewrite filter_app, length_app. cbn.
  destruct (Nat.eqb c cb); reflexivity.
Qed.

(** A callback the manager no longer holds is never called again,
    whatever happens next, unless it is handed to the manager anew. *)
Lemma dropped_callback_never_called (trace : list Event) (w : World) (cb : Callback) :
  resultCallback (manager w) <> Some cb ->
  (forall e, In e trace -> registers e <> Some cb) ->
  deliveries cb (run dev w trace) = deliveries cb w /\
  resultCallback (manager (run dev w trace)) <> Some cb.
Proof.
  revert w. induction trace as [| e trace IH]; intros w Hcb Hreg.
  - split; [reflexivity | exact Hcb].
  - cbn [run fold_left]. fold (run dev (step dev w e) trace).
    assert (He : registers e <> Some cb) by (apply Hreg; left; reflexivity).
    assert (Hrest : forall e', In e' trace -> registers e' <> Some cb)
      by (intros e' H'; apply Hreg; right; exact H').
    pose proof (step_effect dev w e) as Heff.
    destruct (registers e) as [cb' |].
    + destruct Heff as [Hd Hc].
      destruct (IH (step dev w e)) as [IH1 IH2]; [congruence | exact Hrest |].
      split; [| exact IH2]. rewrite IH1. apply deliveries_same, Hd.
    + destruct Heff as [[Hd Hc] | [Hc Hd]].
      * destruct (IH (step dev w e)) as [IH1 IH2]; [congruence | exact Hrest |].
        split; [| exact IH2]. rewrite IH1. apply deliveries_same, Hd.
      * destruct (IH (step dev w e)) as [IH1 IH2]; [congruence | exact Hrest |].
        split; [| exact IH2]. rewrite IH1.
        destruct (resultCallback (manager w)) as [c |].
        -- destruct Hd as [r Hd]. rewrite (deliveries_snoc cb c r w _ Hd).
           destruct (Nat.eq_dec c cb) as [Heq | Hne]; [congruence |].
           apply Nat.eqb_neq in Hne. rewrite Hne. lia.
        -- apply deliveries_same, Hd.
Qed.

(** The invariant behind "at most once": no callback has been called
    twice, only callbacks handed to the manager have been called, and
    the callback the manager holds has not been called yet. *)
Lemma at_most_once_invariant (trace : list Event) (w : World) (regs : list Callback) :
  (forall cb, deliveries cb w <= 1)%nat ->
  (forall cb, (0 < deliveries cb w)%nat -> In cb regs) ->
  (forall cb, resultCallback (manager w) = Some cb ->
              In cb regs /\ deliveries cb w = 0%nat) ->
  NoDup (regs ++ registrations trace) ->
  forall cb, (deliveries cb (run dev w trace) <= 1)%nat.
Proof.
  revert w regs. induction trace as [| e trace IH]; intros w regs H1 H2 H3 Hnd cb.
  - apply H1.
  - cbn [run fold_left]. fold (run dev (step dev w e) trace).
    pose proof (step_effect dev w e) as Heff.
    cbn [registrations] in Hnd.
    destruct (registers e) as [cb' |].
    + destruct Heff as [Hd Hc].
      assert (Hfresh : ~ In cb' regs).
      { apply NoDup_remove_2 in Hnd. intros Hin. apply Hnd, in_or_app. left; exact Hin. }
      apply (IH (step dev w e) (regs ++ [cb'])%list).
      * intros c. rewrite (deliveries_same c _ _ Hd). apply H1.
      * intros c Hc'. rewrite (deliveries_same c _ _ Hd) in Hc'.
        apply in_or_app. left. apply H2, Hc'.
      * intros c Hc'. rewrite Hc in Hc'. injection Hc' as <-.
        split; [apply in_or_app; right; left; reflexivity |].
        rewrite (deliveries_same cb' _ _ Hd).
        destruct (deliveries cb' w) eqn:E; [reflexivity |].
        exfalso. apply Hfresh, H2. lia.
      * rewrite <- app_assoc. exact Hnd.
    + destruct Heff as [[Hd Hc] | [Hc Hd]].
      * apply (IH (step dev w e) regs); try exact Hnd.
        -- intros c. rewrite (deliveries_same c _ _ Hd). apply H1.
        -- intros c Hc'. rewrite (deliveries_same c _ _ Hd) in Hc'. apply H2, Hc'.
        -- intros c Hc'. rewrite Hc in Hc'. rewrite (deliveries_same c _ _ Hd).
           apply H3, Hc'.
      * destruct (resultCallback (manager w)) as [c0 |] eqn:E0.
        -- destruct Hd as [r Hd]. destruct (H3 c0 eq_refl) as [Hin0 Hz0].
           apply (IH (step dev w e) regs); try exact Hnd.
           ++ intros c. rewrite (deliveries_snoc c c0 r w _ Hd).
              destruct (Nat.eq_dec c0 c) as [Heq | Hne].
              ** subst c. rewrite Nat.eqb_refl. lia.
              ** apply Nat.eqb_neq in Hne. rewrite Hne. specialize (H1 c). lia.
           ++ intros c Hc'. rewrite (deliveries_snoc c c0 r w _ Hd) in Hc'.
              destruct (Nat.eq_dec c0 c) as [Heq | Hne].
              ** subst c. exact Hin0.
              ** apply Nat.eqb_neq in Hne. rewrite Hne in Hc'. apply H2. lia.
           ++ intros c Hc'. congruence.
        -- apply (IH (step dev w e) regs); try exact Hnd.
           ++ intros c. rewrite (deliveries_same c _ _ Hd). apply H1.
           ++ intros c Hc'. rewrite (deliveries_same c _ _ Hd) in Hc'. apply H2, Hc'.
           ++ intros c Hc'. congruence.
Qed.

(** No callback is called more than once, whatever the order of calls
    from TypeScript, delegate calls and queued work, provided each
    callback is handed to the manager once. *)
Theorem callback_called_at_most_once (trace : list Event) (cb : Callback) :
  NoDup (registrations trace) ->
  (deliveries cb (run dev initWorld trace) <= 1)%nat.
Proof.
  intros Hnd. apply (at_most_once_invariant trace initWorld []).
  - intros c. cbn. lia.
  - intros c. cbn. lia.
  - intros c. cbn. discriminate.
  - exact Hnd.
Qed.

End ManagerTraces.

Lemma callback_called_at_most_once_witness :
  (NFCManager.deliveries 1%nat
     (NFCManager.run Spec.capableDevice NFCManager.initWorld
        [NFCManager.callScan 1%nat; NFCManager.callStop; NFCManager.runMain;
         NFCManager.invalidated
           (NFCManager.readerError
              NFCManager.readerSessionInvalidationErrorUserCanceled "");
         NFCManager.runMain]) <= 1)%nat.
Proof.
  apply callback_called_at_most_once.
  repeat constructor; intros [].
Defined.

Section SingleSession.

Import NFCManager.

(** However a tag answers, processing it ends in one [emitAndClose]. *)
Lemma processTag_emitAndClose (dev : Device) (tag : Tag) (s : Session) (w : World) :
  exists r msg,
    processTag dev tag s w = emitAndClose s r (native (alertMessage s msg) w).
Proof.
  unfold processTag.
  destruct (connects tag); cbn [negb]; [| eexists; eexists; reflexivity].
  destruct (queryNDEFStatus tag) as [[] |]; try (eexists; eexists; reflexivity).
  - destruct (sessionMode (manager w)).
    + destruct (readNDEF tag); eexists; eexists; reflexivity.
    + destruct (createNdefMessageForWriting dev w) as [[] |];
        try (eexists; eexists; reflexivity).
      destruct (writeNDEF tag); eexists; eexists; reflexivity.
  - destruct (sessionMode (manager w)).
    + destruct (readNDEF tag); eexists; eexists; reflexivity.
    + eexists; eexists; reflexivity.
Qed.

(** One session on its own, ended by a stop or an invalidation: once
    the main queue has run, exactly one call has been made, to the
    session's callback. *)
Theorem single_session_one_result (dev : Device) (w : World) (start e : Event) (cb : Callback) :
  mainQueue w = [] ->
  registers start = Some cb ->
  endsSession e = true ->
  exists r,
    delivered (run dev w [start; e; runMain]) = (delivered w ++ [(cb, r)])%list.
Proof.
  intros Hq Hstart He.
  destruct w as [[rs sm wu rc he ia] q t ts d calls ns]. cbn in Hq. subst q.
  destruct dev as [[] [] f g];
    destruct start; try discriminate Hstart; injection Hstart as ->;
    destruct e as [| | | [[] desc | desc] | | | | |]; try discriminate He;
    destruct rs; eexists; reflexivity.
Qed.

Lemma single_session_tag_delivery (dev : Device) (w : World) (start : Event)
  (cb : Callback) (s : Session) (tag : Tag) :
  mainQueue w = [] ->
  tasks w = [] ->
  registers start = Some cb ->
  exists r,
    delivered (run dev w [start; detected s [tag]; runTask; runMain])
    = (delivered w ++ [(cb, r)])%list.
Proof.
  intros Hq Ht Hstart.
  destruct w as [[rs sm wu rc he ia] q t ts d calls ns]. cbn in Hq, Ht. subst q ts.
  unfold run. cbn [fold_left].
  destruct dev as [[] [] f g];
    destruct start; try discriminate Hstart; injection Hstart as ->;
    destruct rs;
    cbv [step scanWithCallback writeWithUrlCallback startSession resetState upd
         setManager setReaderSession setSessionMode setWriteUrl setResultCallback
         setHasEmittedResult setIsSessionActive native newSession emitResult
         mainAsync manager readerSession readingAvailable sessionCreated negb
         hasEmittedResult failureResult didDetect spawn asyncAfter tasks
         setTasks List.length Nat.ltb Nat.leb app mainQueue timers delivered
         nativeCalls nextSession sessionMode writeUrl resultCallback isSessionActive];
    match goal with
    | |- context [processTag ?d ?t ?s0 ?W] =>
        destruct (processTag_emitAndClose d t s0 W) as (r & msg & ->)
    end;
    eexists; reflexivity.
Qed.

(** One session on its own in which one tag is detected and processed:
    once the main queue has run, exactly one call has been made, to
    the session's callback. *)
Theorem single_session_tag_one_result (dev : Device) (w : World) (start : Event)
  (cb : Callback) (s : Session) (tag : Tag) :
  mainQueue w = [] ->
  tasks w = [] ->
  registers start = Some cb ->
  exists r,
    delivered (run dev w [start; detected s [tag]; runTask; runMain])
    = (delivered w ++ [(cb, r)])%list.
Proof. apply single_session_tag_delivery. Qed.

(** C1, where the code departs from it: a scan is started with callback
    1 and, before anything else happens, a second scan is started with
    callback 2 (the scan button pressed twice).  Then the session is
    stopped and the main queue runs.  Callback 2 is called once;
    callback 1 is never called, on any device. *)
Theorem replaced_session_gets_no_result (dev : Device) :
  let w := run dev initWorld
             [callScan 1%nat; callScan 2%nat; callStop; runMain; runMain] in
  deliveries 1%nat w = 0%nat /\ deliveries 2%nat w = 1%nat /\
  mainQueue w = [] /\ tasks w = [] /\ timers w = [].
Proof. destruct dev as [[] [] f g]; vm_compute; repeat split. Qed.

End SingleSession.

Lemma single_session_one_result_witness :
  exists r,
    NFCManager.delivered
      (NFCManager.run Spec.capableDevice NFCManager.initWorld
         [NFCManager.callScan 7%nat; NFCManager.callStop; NFCManager.runMain])
    = [(7%nat, r)].
Proof.
  apply (single_session_one_result Spec.capableDevice NFCManager.initWorld
           (NFCManager.callScan 7%nat) NFCManager.callStop 7%nat); reflexivity.
Defined.

Lemma single_session_tag_one_result_witness :
  exists r,
    NFCManager.delivered
      (NFCManager.run Spec.capableDevice NFCManager.initWorld
         [NFCManager.callWrite "https://example.com" 3%nat;
          NFCManager.detected 0%nat
            [{| NFCManager.connects := true;
                NFCManager.queryNDEFStatus := Some NFCManager.readOnly;
                NFCManager.readNDEF := None;
                NFCManager.writeNDEF := false;
                NFCManager.failure := "" |}];
          NFCManager.runTask; NFCManager.runMain])
    = [(3%nat, r)].
Proof.
  apply (single_session_tag_one_result Spec.capableDevice NFCManager.initWorld
           (NFCManager.callWrite "https://example.com" 3%nat) 3%nat); reflexivity.
Defined.

(** ** The TypeScript facade *)

Section FacadeFacts.

Import JS Nfc.

Context {M : Type} {native : NFCManagerInstance M}.
Variable platform : Platform.

Lemma staticProbeSilent_available :
  Spec.staticProbeSilent platform -> _available platform = false.
Proof.
  unfold Spec.staticProbeSilent, _available.
  intros [H | [[e H] | H]]; rewrite H; try reflexivity;
    destruct (isIOS11OrUp platform); reflexivity.
Qed.

(** C5: [available] never rejects and is never left pending: in every
    state of the object and of the platform it resolves with a
    boolean; and it resolves with false when NFC is absent, also when
    the framework is missing or a probe throws. *)
Theorem available_resolves_boolean (nfc : Nfc.Nfc M) :
  (exists b, fst (available platform nfc) = resolved b) /\
  (Spec.nfcAbsent platform nfc -> fst (available platform nfc) = resolved false).
Proof.
  unfold available, Spec.nfcAbsent.
  destruct (nativeManager nfc) as [m |].
  - destruct (isAvailable m) as [[b | e] m']; cbn [fst].
    + split; [exists b; reflexivity | intros ->; reflexivity].
    + split; [eexists; reflexivity |].
      intros H. rewrite (staticProbeSilent_available H). reflexivity.
  - cbn [fst]. split; [eexists; reflexivity |].
    intros H. rewrite (staticProbeSilent_available H). reflexivity.
Qed.

(** C9: [enabled] gives what [available] gives, in every state: the
    same settlement and the same state afterwards. *)
Theorem enabled_same_as_available (nfc : Nfc.Nfc M) :
  enabled platform nfc = available platform nfc.
Proof. reflexivity. Qed.

(** [stopListening] resolves with true whatever the native manager
    does, also when stopping it throws. *)
Lemma stopListening_resolves (nfc : Nfc.Nfc M) :
  fst (stopListening nfc) = resolved true.
Proof. reflexivity. Qed.

(** C7 and C10, as the code has them: without records to write, or
    with text records only, [writeTag] rejects at once, makes no
    native call and leaves the object as it was.  The reason names
    the missing native manager when there is none; otherwise it names
    the missing URI record, or says that text records are not
    supported. *)
Lemma writeTag_without_uri (arg : WriteTagOptions) (nfc : Nfc.Nfc M) :
  nonEmpty (uriRecords arg) = false ->
  writeTag arg nfc =
  (rejected
     match nativeManager nfc with
     | None => "NFC write not available - native manager not initialized"
     | Some _ =>
         if nonEmpty (textRecords arg)
         then "Writing text records not supported. Please provide a URI record."
         else "No URI record provided for writing"
     end, nfc).
Proof.
  intros Huri. unfold writeTag.
  destruct (nativeManager nfc) as [m |]; [| reflexivity].
  rewrite Huri. cbn [negb andb].
  destruct (nonEmpty (textRecords arg)); reflexivity.
Qed.

End FacadeFacts.

Lemma available_resolves_boolean_witness :
  fst (Nfc.available (native := Nfc.swiftManager Spec.capableDevice)
         Spec.platformWithoutCoreNFC Spec.nfcWithoutManager)
  = Nfc.resolved false.
Proof.
  apply (available_resolves_boolean (native := Nfc.swiftManager Spec.capableDevice)
           Spec.platformWithoutCoreNFC Spec.nfcWithoutManager).
  right. left. exists "ReferenceError". reflexivity.
Defined.

(** C7 as stated fails: with no native manager, [writeTag] without any
    record rejects because writing is not available, not because no
    data was supplied. *)
Lemma writeTag_no_records_without_manager :
  let outcome :=
    fst (Nfc.writeTag (native := Nfc.swiftManager Spec.capableDevice)
           {| Nfc.uriRecords := None; Nfc.textRecords := None |}
           Spec.nfcWithoutManager) in
  outcome = Nfc.rejected "NFC write not available - native manager not initialized" /\
  outcome <> Nfc.rejected "No URI record provided for writing".
Proof. split; [reflexivity | discriminate]. Qed.

(** C7 as amended: without a URI record and without a text record
    (each list absent or empty), [writeTag] rejects and does not
    throw, and the object is unchanged: with "No URI record provided
    for writing" when the native manager exists, with "NFC write not
    available - native manager not initialized" when it does not. *)
Theorem writeTag_no_records_rejects {M : Type} {native : Nfc.NFCManagerInstance M}
  (arg : Nfc.WriteTagOptions) (nfc : Nfc.Nfc M)
  (Huri : Nfc.nonEmpty (Nfc.uriRecords arg) = false)
  (Htext : Nfc.nonEmpty (Nfc.textRecords arg) = false) :
  Nfc.writeTag arg nfc =
  (Nfc.rejected
     match Nfc.nativeManager nfc with
     | Some _ => "No URI record provided for writing"
     | None => "NFC write not available - native manager not initialized"
     end, nfc).
Proof.
  rewrite (writeTag_without_uri arg nfc Huri), Htext.
  destruct (Nfc.nativeManager nfc); reflexivity.
Qed.

Lemma writeTag_no_records_rejects_witness :
  Nfc.writeTag (native := Nfc.swiftManager Spec.capableDevice)
    {| Nfc.uriRecords := Some []; Nfc.textRecords := None |} Spec.freshNfc
  = (Nfc.rejected "No URI record provided for writing", Spec.freshNfc).
Proof.
  apply (writeTag_no_records_rejects (native := Nfc.swiftManager Spec.capableDevice)
           {| Nfc.uriRecords := Some []; Nfc.textRecords := None |} Spec.freshNfc);
    reflexivity.
Defined.

(** C10 as stated fails: with no native manager, [writeTag] with text
    records only rejects because writing is not available, not because
    text records are not supported. *)
Lemma writeTag_text_only_without_manager :
  let outcome :=
    fst (Nfc.writeTag (native := Nfc.swiftManager Spec.capableDevice)
           {| Nfc.uriRecords := None;
              Nfc.textRecords :=
                Some [{| Nfc.text := "hello"; Nfc.languageCode := None |}] |}
           Spec.nfcWithoutManager) in
  outcome = Nfc.rejected "NFC write not available - native manager not initialized" /\
  outcome <>
    Nfc.rejected "Writing text records not supported. Please provide a URI record.".
Proof. split; [reflexivity | discriminate]. Qed.

(** C10 as amended: with text records only (a non-empty [textRecords]
    and no URI record), [writeTag] rejects before any native call and
    the object, with the native manager's session state, is unchanged:
    with "Writing text records not supported. Please provide a URI
    record." when the native manager exists, with "NFC write not
    available - native manager not initialized" when it does not. *)
Theorem writeTag_text_only_rejects {M : Type} {native : Nfc.NFCManagerInstance M}
  (arg : Nfc.WriteTagOptions) (nfc : Nfc.Nfc M)
  (Huri : Nfc.nonEmpty (Nfc.uriRecords arg) = false)
  (Htext : Nfc.nonEmpty (Nfc.textRecords arg) = true) :
  Nfc.writeTag arg nfc =
  (Nfc.rejected
     match Nfc.nativeManager nfc with
     | Some _ => "Writing text records not supported. Please provide a URI record."
     | None => "NFC write not available - native manager not initialized"
     end, nfc).
Proof.
  rewrite (writeTag_without_uri arg nfc Huri), Htext.
  destruct (Nfc.nativeManager nfc); reflexivity.
Qed.

Lemma writeTag_text_only_rejects_witness :
  Nfc.writeTag (native := Nfc.swiftManager Spec.capableDevice)
    {| Nfc.uriRecords := None;
       Nfc.textRecords := Some [{| Nfc.text := "hi"; Nfc.languageCode := Some "en" |}] |}
    Spec.freshNfc
  = (Nfc.rejected "Writing text records not supported. Please provide a URI record.",
     Spec.freshNfc).
Proof.
  apply (writeTag_text_only_rejects (native := Nfc.swiftManager Spec.capableDevice)
           {| Nfc.uriRecords := None;
              Nfc.textRecords :=
                Some [{| Nfc.text := "hi"; Nfc.languageCode := Some "en" |}] |}
           Spec.freshNfc); reflexivity.
Defined.

(** C6: stopping is safe and idempotent.  With the Swift manager
    behind the facade, [stopListening] resolves with true in every
    state; a second call in a row resolves with true again and leaves
    the state the first call produced; and with nothing to stop (no
    session was started, or it was stopped before) the call changes
    nothing at all. *)
Theorem stopListening_idempotent (dev : NFCManager.Device)
  (nfc : Nfc.Nfc NFCManager.World) :
  let stop := Nfc.stopListening (native := Nfc.swiftManager dev) in
  fst (stop nfc) = Nfc.resolved true /\
  stop (snd (stop nfc)) = stop nfc /\
  (Spec.nothingToStop nfc -> stop nfc = (Nfc.resolved true, nfc)).
Proof.
  destruct nfc as [s [[[rs sm wu rc he ia] q t ts d calls ns] |] inv c].
  - split; [reflexivity |]. split.
    + destruct s, rs, rc, he; reflexivity.
    + intros [Hs [Hrs [Hia Hrc]]]. cbn in Hs, Hrs, Hia, Hrc. subst s rs ia.
      destruct rc, he; try reflexivity; destruct Hrc; discriminate.
  - split; [reflexivity |]. split.
    + destruct s; reflexivity.
    + intros [Hs _]. cbn in Hs. subst s. reflexivity.
Qed.

Lemma stopListening_idempotent_witness :
  Nfc.stopListening (native := Nfc.swiftManager Spec.capableDevice) Spec.freshNfc
  = (Nfc.resolved true, Spec.freshNfc).
Proof.
  apply (stopListening_idempotent Spec.capableDevice Spec.freshNfc).
  split; [reflexivity |]. cbn. repeat split. left. reflexivity.
Defined.

(** ** More on the decoder *)

Lemma textOf_length (l : list byte) : String.length (Spec.textOf l) = List.length l.
Proof. induction l; simpl; congruence. Qed.

(** The decoded text has one character per payload byte, with the
    byte's value as its code: bytes are not read as UTF-8. *)
Theorem payload_text_one_character_per_byte (tbl : list string)
  (r : Ndef.NFCNDEFPayload) :
  Ndef.payloadAsStringWithPrefix (Ndef.recordToJSON tbl r) = Spec.textOf (Ndef.payload r) /\
  String.length (Ndef.payloadAsStringWithPrefix (Ndef.recordToJSON tbl r))
  = List.length (Ndef.payload r).
Proof.
  rewrite payloadAsStringWithPrefix_textOf. split; [reflexivity | apply textOf_length].
Qed.

Lemma hexLoop_hex2 (b : byte) :
  Ndef.hexLoop 0 (JS.toLowerCase (Ndef.hex2 b)) = Z.of_N (Byte.to_N b).
Proof. destruct b; reflexivity. Qed.

Lemma hexToDec_first_byte (l : list byte) :
  Ndef.hexToDec (hd_error (Ndef.nsdataToHexArray l)) =
  match l with
  | [] => None
  | b :: _ => Some (Z.of_N (Byte.to_N b))
  end.
Proof.
  destruct l as [| b rest]; [reflexivity |].
  cbn [Ndef.nsdataToHexArray Ndef.buf2hexArray map hd_error Ndef.hexToDec].
  rewrite hexLoop_hex2. reflexivity.
Qed.

(** The decoded type is the value of the first byte of the native
    type, whatever follows it, and [undefined] for an empty type. *)
Theorem record_type_is_first_type_byte (tbl : list string) (r : Ndef.NFCNDEFPayload) :
  Ndef.rtype (Ndef.recordToJSON tbl r) =
  match Ndef.type r with
  | [] => None
  | b :: _ => Some (Z.of_N (Byte.to_N b))
  end.
Proof. rewrite rtype_recordToJSON. apply hexToDec_first_byte. Qed.

Lemma hexToDecArray_buf2hexArray (l : list byte) :
  Ndef.hexToDecArray (Ndef.buf2hexArray l) =
  JS.stringifyNumbers (map (fun b => Z.of_N (Byte.to_N b)) l).
Proof.
  unfold Ndef.hexToDecArray, Ndef.buf2hexArray. rewrite map_map.
  rewrite (map_ext _ (fun b => Z.of_N (Byte.to_N b)) hexLoop_hex2). reflexivity.
Qed.

(** The fields [payload] and [id] of the decoded record are the JSON
    texts of the arrays of byte values of the native payload and
    identifier: going through hexadecimal text and back loses
    nothing. *)
Theorem payload_and_id_are_byte_values (tbl : list string) (r : Ndef.NFCNDEFPayload) :
  Ndef.rpayload (Ndef.recordToJSON tbl r) =
    JS.stringifyNumbers (map (fun b => Z.of_N (Byte.to_N b)) (Ndef.payload r)) /\
  Ndef.id (Ndef.recordToJSON tbl r) =
    JS.stringifyNumbers (map (fun b => Z.of_N (Byte.to_N b)) (Ndef.identifier r)).
Proof. split; apply hexToDecArray_buf2hexArray. Qed.

Lemma text_record_status_below_10_witness :
  Ndef.payloadAsString
    (Ndef.recordToJSON Spec.NfcUriProtocols (Spec.textRecord (x02 :: Spec.bytesOf "enHi")))
  = "Hi".
Proof.
  apply (text_record_status_below_10 Spec.NfcUriProtocols
           (Spec.textRecord (x02 :: Spec.bytesOf "enHi")) x02 (Spec.bytesOf "enHi"));
    reflexivity.
Defined.

Lemma uri_record_code_below_16_witness :
  Ndef.payloadAsString
    (Ndef.recordToJSON Spec.NfcUriProtocols
       (Spec.uriRecord (x04 :: Spec.bytesOf "example.com")))
  = "example.com".
Proof.
  apply (uri_record_code_below_16 Spec.NfcUriProtocols
           (Spec.uriRecord (x04 :: Spec.bytesOf "example.com")) x04
           (Spec.bytesOf "example.com")); reflexivity.
Defined.

Lemma match_not_text_nor_uri (A : Type) (z : Z) (a b c : A) :
  z <> 84 -> z <> 85 ->
  match z with 84 => a | 85 => b | _ => c end = c.
Proof.
  intros H84 H85. destruct z as [| p | p]; try reflexivity.
  do 7 (destruct p as [p | p |]; try reflexivity); congruence.
Qed.

(** A record whose type does not start with the byte 0x54 ("T") or
    0x55 ("U"), or whose type is empty, is not stripped:
    [payloadAsString] is the whole payload text. *)
Theorem other_record_types_not_stripped (tbl : list string) (r : Ndef.NFCNDEFPayload) :
  hd_error (Ndef.type r) <> Some x54 ->
  hd_error (Ndef.type r) <> Some x55 ->
  Ndef.payloadAsString (Ndef.recordToJSON tbl r) = Spec.textOf (Ndef.payload r).
Proof.
  intros HT HU.
  unfold Ndef.recordToJSON. cbn [Ndef.payloadAsString].
  rewrite hexToDec_first_byte.
  destruct (Ndef.type r) as [| b rest].
  - apply nsdataToASCIIString_textOf.
  - rewrite match_not_text_nor_uri.
    + apply nsdataToASCIIString_textOf.
    + intros E. apply HT. cbn. f_equal. destruct b; try discriminate E. reflexivity.
    + intros E. apply HU. cbn. f_equal. destruct b; try discriminate E. reflexivity.
Qed.

Lemma other_record_types_not_stripped_witness :
  Ndef.payloadAsString
    (Ndef.recordToJSON Spec.NfcUriProtocols
       {| Ndef.typeNameFormat := 2; Ndef.type := Spec.bytesOf "text/plain";
          Ndef.identifier := []; Ndef.payload := Spec.bytesOf "hello" |})
  = "hello".
Proof.
  apply (other_record_types_not_stripped Spec.NfcUriProtocols
           {| Ndef.typeNameFormat := 2; Ndef.type := Spec.bytesOf "text/plain";
              Ndef.identifier := []; Ndef.payload := Spec.bytesOf "hello" |});
    discriminate.
Defined.

Lemma arrayGet_decimal_digits (tbl : list string) (b : byte) :
  ((1 <=? Byte.to_N b / 16) && (Byte.to_N b / 16 <=? 9)
   && (Byte.to_N b mod 16 <=? 9))%N = true ->
  JS.arrayGet tbl (Some (Ndef.hex2 b)) =
  nth_error tbl (N.to_nat (10 * (Byte.to_N b / 16) + Byte.to_N b mod 16)).
Proof.
  intros H. destruct b; try reflexivity; vm_compute in H; discriminate H.
Qed.

(** A URI record whose prefix code is written with two decimal digits
    in hexadecimal, the first not zero (0x10 to 0x99 without letters):
    the decoder reads the two digits in base ten and takes that entry
    of the table (code 0x10 takes entry 10, not 16), or no prefix when
    the table is shorter. *)
Theorem uri_record_code_read_in_base_ten (tbl : list string) (r : Ndef.NFCNDEFPayload)
  (b : byte) (rest : list byte) :
  hd_error (Ndef.type r) = Some x55 ->
  Ndef.payload r = b :: rest ->
  ((1 <=? Byte.to_N b / 16) && (Byte.to_N b / 16 <=? 9)
   && (Byte.to_N b mod 16 <=? 9))%N = true ->
  Ndef.payloadAsString (Ndef.recordToJSON tbl r) =
  nth (N.to_nat (10 * (Byte.to_N b / 16) + Byte.to_N b mod 16)) tbl ""
  ++ Spec.textOf rest.
Proof.
  intros Ht Hp Hb.
  unfold Ndef.recordToJSON. cbn [Ndef.payloadAsString].
  rewrite hexToDec_first_byte, Hp.
  destruct (Ndef.type r) as [| t0 trest]; [discriminate Ht |].
  cbn in Ht. injection Ht as ->.
  cbn [Byte.to_N Z.of_N Ndef.nsdataToHexArray Ndef.buf2hexArray map hd_error].
  rewrite (arrayGet_decimal_digits tbl b Hb).
  rewrite js_slice_1, nsdataToASCIIString_textOf. cbn [Spec.textOf Spec.dropLeading].
  f_equal.
  generalize (N.to_nat (10 * (Byte.to_N b / 16) + Byte.to_N b mod 16)). intros k.
  revert tbl. induction k as [| k IH]; intros [| p tbl']; cbn; try reflexivity.
  - destruct p; reflexivity.
  - apply IH.
Qed.

Lemma uri_record_code_read_in_base_ten_witness :
  Ndef.payloadAsString
    (Ndef.recordToJSON Spec.NfcUriProtocols
       (Spec.uriRecord (x10 :: Spec.bytesOf "host")))
  = "sftp://host".
Proof.
  apply (uri_record_code_read_in_base_ten Spec.NfcUriProtocols
           (Spec.uriRecord (x10 :: Spec.bytesOf "host")) x10 (Spec.bytesOf "host"));
    reflexivity.
Defined.

(** ** More on the session manager *)

Section ManagerMore.

Import NFCManager.

(** Zero tags, or more than one, in a detection: nothing is emitted and
    no tag is processed; the user is told and polling restarts half a
    second later. *)
Theorem didDetect_restarts_polling (s : Session) (tags : list Tag) (w : World) :
  List.length tags <> 1%nat ->
  exists msg,
    didDetect s tags w = asyncAfter (restartBlock s) (native (alertMessage s msg) w) /\
    manager (didDetect s tags w) = manager w /\
    mainQueue (didDetect s tags w) = mainQueue w /\
    tasks (didDetect s tags w) = tasks w /\
    nativeCalls (runBlock (restartBlock s) (didDetect s tags w))
    = (nativeCalls w ++ [alertMessage s msg; restartPolling s])%list.
Proof.
  intros Hlen. unfold didDetect.
  destruct tags as [| t1 [| t2 rest]].
  - eexists. cbn. rewrite <- app_assoc. repeat split.
  - exfalso. apply Hlen. reflexivity.
  - eexists. cbn. rewrite <- app_assoc. repeat split.
Qed.

(** An invalidation of a session that has not reported yet, for any
    reason but "first tag read", queues exactly one result: a failure
    with an error code.  The manager then holds no session. *)
Theorem invalidation_reports_failure (error : SessionError) (w : World) :
  hasEmittedResult (manager w) = false ->
  endsSession (invalidated error) = true ->
  exists r,
    mainQueue (didInvalidateWithError error w) = (mainQueue w ++ [emitBlock r])%list /\
    success r = false /\ errorCode r <> None /\
    readerSession (manager (didInvalidateWithError error w)) = None /\
    isSessionActive (manager (didInvalidateWithError error w)) = false /\
    hasEmittedResult (manager (didInvalidateWithError error w)) = true.
Proof.
  intros Hem Hend.
  destruct w as [[rs sm wu rc he ia] q t ts d calls ns]. cbn in Hem. subst he.
  destruct error as [[] desc | desc]; try discriminate Hend;
    eexists; cbn; repeat split; discriminate.
Qed.

(** The error code of the result tells the invalidation reasons apart:
    two reasons that give the same code are the same reason, or are
    both unknown to the code. *)
Theorem invalidation_error_codes_distinct (c1 c2 : ReaderErrorCode) (d1 d2 : string)
  (w : World) (r1 r2 : NFCResult) :
  hasEmittedResult (manager w) = false ->
  mainQueue (didInvalidateWithError (readerError c1 d1) w)
    = (mainQueue w ++ [emitBlock r1])%list ->
  mainQueue (didInvalidateWithError (readerError c2 d2) w)
    = (mainQueue w ++ [emitBlock r2])%list ->
  errorCode r1 = errorCode r2 ->
  c1 = c2 \/ (exists z1 z2, c1 = unknownCode z1 /\ c2 = unknownCode z2).
Proof.
  intros Hem H1 H2 Hcode.
  destruct w as [[rs sm wu rc he ia] q t ts d calls ns]. cbn in Hem. subst he.
  destruct c1; cbn in H1;
    try (exfalso; apply (f_equal (@List.length Block)) in H1;
         rewrite length_app in H1; cbn in H1; lia);
    apply app_inv_head in H1; injection H1 as <-;
    destruct c2; cbn in H2;
    try (exfalso; apply (f_equal (@List.length Block)) in H2;
         rewrite length_app in H2; cbn in H2; lia);
    apply app_inv_head in H2; injection H2 as <-;
    try (left; reflexivity); try discriminate Hcode.
  right. eexists; eexists; split; reflexivity.
Qed.

(** A device without NFC: starting a scan begins no session and
    queues the result NFC_NOT_AVAILABLE; the manager holds no session
    and reports none active. *)
Theorem scan_without_nfc (dev : Device) (cb : Callback) (w : World) :
  readingAvailable dev = false ->
  let w' := scanWithCallback dev cb w in
  mainQueue w' =
    (mainQueue w ++ [emitBlock (failureResult "NFC not supported on this device."
                                              "NFC_NOT_AVAILABLE")])%list /\
  readerSession (manager w') = None /\
  getIsSessionActive w' = false /\
  resultCallback (manager w') = Some cb /\
  nativeCalls w' =
    (nativeCalls w ++ match readerSession (manager w) with
                      | Some s => [invalidate s]
                      | None => []
                      end)%list.
Proof.
  intros Hav.
  destruct w as [[rs sm wu rc he ia] q t ts d calls ns].
  unfold scanWithCallback, startSession. rewrite Hav.
  destruct rs; cbn; rewrite ?app_nil_r; repeat split.
Qed.

Lemma processTag_emitAndClose_coded (dev : Device) (tag : Tag) (s : Session) (w : World) :
  exists r msg,
    processTag dev tag s w = emitAndClose s r (native (alertMessage s msg) w) /\
    Spec.coded r = true.
Proof.
  unfold processTag.
  destruct (connects tag); cbn [negb]; [| eexists; eexists; split; reflexivity].
  destruct (queryNDEFStatus tag) as [[] |]; try (eexists; eexists; split; reflexivity).
  - destruct (sessionMode (manager w)).
    + destruct (readNDEF tag) as [[[u t] r] |]; eexists; eexists; split; reflexivity.
    + destruct (createNdefMessageForWriting dev w) as [[] |];
        try (eexists; eexists; split; reflexivity).
      destruct (writeNDEF tag); eexists; eexists; split; reflexivity.
  - destruct (sessionMode (manager w)).
    + destruct (readNDEF tag) as [[[u t] r] |]; eexists; eexists; split; reflexivity.
    + eexists; eexists; split; reflexivity.
Qed.

(** A write session reports success only for a tag that answered, is
    writable, took the write, and for a URL that could be turned into
    a record; the result then carries the URL written. *)
Theorem write_success_only_when_written (dev : Device) (tag : Tag) (s : Session)
  (w : World) (r : NFCResult) :
  sessionMode (manager w) = write ->
  hasEmittedResult (manager w) = false ->
  mainQueue (processTag dev tag s w) = (mainQueue w ++ [emitBlock r])%list ->
  success r = true ->
  connects tag = true /\
  queryNDEFStatus tag = Some readWrite /\
  writeNDEF tag = true /\
  (exists absolute, createNdefMessageForWriting dev w = inr absolute) /\
  url r = writeUrl (manager w) /\ errorCode r = None.
Proof.
  intros Hmode Hem Hq Hs.
  unfold processTag in Hq. rewrite Hmode in Hq.
  unfold emitAndClose, emitResult in Hq. cbn [asyncAfter native manager mainQueue] in Hq.
  rewrite Hem in Hq.
  destruct (connects tag); cbn [negb] in Hq.
  2: { cbn in Hq. apply app_inv_head in Hq. injection Hq as <-. discriminate Hs. }
  destruct (queryNDEFStatus tag) as [[] |]; cbn in Hq;
    try (apply app_inv_head in Hq; injection Hq as <-; discriminate Hs).
  destruct (createNdefMessageForWriting dev w) as [[] | absolute]; cbn in Hq;
    try (apply app_inv_head in Hq; injection Hq as <-; discriminate Hs).
  destruct (writeNDEF tag); cbn in Hq;
    apply app_inv_head in Hq; injection Hq as <-; try discriminate Hs.
  repeat split. exists absolute. reflexivity.
Qed.

End ManagerMore.

(** ** Every result has an error code exactly when it is a failure *)

Section CodedResults.

Import NFCManager.

Variable dev : Device.

Lemma coded_emitResult r w : Spec.coded r = true -> Spec.codedWorld w -> Spec.codedWorld (emitResult r w).
Proof.
  intros Hr (Hq & Ht & Hd). unfold emitResult.
  destruct (hasEmittedResult (manager w)); [repeat split; assumption |].
  repeat split; cbn; try assumption.
  apply Forall_app. split; [assumption | repeat constructor; exact Hr].
Qed.

Lemma coded_emitResultIfNeeded r w :
  Spec.coded r = true -> Spec.codedWorld w -> Spec.codedWorld (emitResultIfNeeded r w).
Proof.
  intros Hr H. unfold emitResultIfNeeded.
  destruct (hasEmittedResult (manager w)); [exact H | apply coded_emitResult; assumption].
Qed.

Lemma coded_emitAndClose s r w :
  Spec.coded r = true -> Spec.codedWorld w -> Spec.codedWorld (emitAndClose s r w).
Proof.
  intros Hr H. destruct (coded_emitResult r w Hr H) as (Hq & Ht & Hd).
  unfold emitAndClose. repeat split; cbn; try assumption.
  apply Forall_app. split; [assumption | repeat constructor].
Qed.

Lemma coded_startSession mode w : Spec.codedWorld w -> Spec.codedWorld (startSession dev mode w).
Proof.
  intros H. unfold startSession.
  destruct (readingAvailable dev); cbn [negb].
  - destruct (sessionCreated dev), (readerSession (manager w));
      first [ exact H
            | lazymatch goal with
              | |- Spec.codedWorld ?X =>
                  let X' := eval cbn -[emitResult] in X in change (Spec.codedWorld X')
              end;
              apply coded_emitResult; [reflexivity | exact H] ].
  - apply coded_emitResult; [reflexivity |].
    destruct (readerSession (manager w)); exact H.
Qed.

Lemma coded_stopSession w : Spec.codedWorld w -> Spec.codedWorld (stopSession w).
Proof.
  intros H. unfold stopSession, cleanupSession.
  destruct (negb (hasEmittedResult (manager w)) &&
            match resultCallback (manager w) with Some _ => true | None => false end).
  - pose proof (coded_emitResult
                  {| success := false; message := "Session stopped by user.";
                     url := None; text := None; raw := None;
                     errorCode := Some "USER_STOPPED" |} w eq_refl H) as H'.
    destruct (readerSession (manager (emitResult _ w))); exact H'.
  - destruct (readerSession (manager w)); exact H.
Qed.

Lemma coded_didInvalidateWithError error w :
  Spec.codedWorld w -> Spec.codedWorld (didInvalidateWithError error w).
Proof.
  intros H. unfold didInvalidateWithError.
  destruct error as [[] desc | desc];
    try (apply coded_emitResultIfNeeded; [reflexivity | exact H]).
  exact H.
Qed.

Lemma coded_didDetect s tags w : Spec.codedWorld w -> Spec.codedWorld (didDetect s tags w).
Proof.
  intros (Hq & Ht & Hd). unfold didDetect.
  destruct (1 <? List.length tags)%nat.
  - repeat split; cbn; try assumption.
    apply Forall_app. split; [assumption | repeat constructor].
  - destruct tags.
    + repeat split; cbn; try assumption.
      apply Forall_app. split; [assumption | repeat constructor].
    + repeat split; assumption.
Qed.

Lemma coded_processTag tag s w : Spec.codedWorld w -> Spec.codedWorld (processTag dev tag s w).
Proof.
  intros H.
  destruct (processTag_emitAndClose_coded dev tag s w) as (r & msg & -> & Hr).
  apply coded_emitAndClose; [exact Hr | exact H].
Qed.

Lemma coded_runBlock b w : Spec.codedBlock b -> Spec.codedWorld w -> Spec.codedWorld (runBlock b w).
Proof.
  intros Hb (Hq & Ht & Hd). destruct b as [r | s | s]; cbn [runBlock].
  - destruct (resultCallback (manager w)); repeat split; cbn; try assumption.
    apply Forall_app. split; [assumption | repeat constructor; exact Hb].
  - repeat split; assumption.
  - repeat split; assumption.
Qed.

Lemma coded_step w e : Spec.codedWorld w -> Spec.codedWorld (step dev w e).
Proof.
  intros H. destruct e; cbn [step].
  - apply coded_startSession. exact H.
  - apply coded_startSession. exact H.
  - apply coded_stopSession, H.
  - apply coded_didInvalidateWithError, H.
  - exact H.
  - apply coded_didDetect, H.
  - destruct (mainQueue w) as [| b q] eqn:E; [exact H |].
    destruct H as (Hq & Ht & Hd). rewrite E in Hq. inversion Hq; subst.
    apply coded_runBlock; [assumption | repeat split; assumption].
  - destruct (tasks w) as [| [tag s] q]; [exact H |].
    apply coded_processTag. exact H.
  - destruct (timers w) as [| b q] eqn:E; [exact H |].
    destruct H as (Hq & Ht & Hd). rewrite E in Ht. inversion Ht; subst.
    apply coded_runBlock; [assumption | repeat split; assumption].
Qed.

Lemma coded_run trace w : Spec.codedWorld w -> Spec.codedWorld (run dev w trace).
Proof.
  revert w. induction trace as [| e trace IH]; intros w H; [exact H |].
  cbn [run fold_left]. apply IH, coded_step, H.
Qed.

(** Whatever happens, every result a callback is called with has an
    error code exactly when it reports a failure. *)
Theorem delivered_results_coded (trace : list Event) (cb : Callback) (r : NFCResult) :
  In (cb, r) (delivered (run dev initWorld trace)) ->
  (success r = false <-> errorCode r <> None).
Proof.
  intros Hin.
  assert (H0 : Spec.codedWorld initWorld) by (repeat split; constructor).
  destruct (coded_run trace initWorld H0) as (_ & _ & Hd).
  rewrite Forall_forall in Hd. specialize (Hd (cb, r) Hin). cbn in Hd.
  unfold Spec.coded in Hd.
  destruct (success r), (errorCode r); try discriminate Hd; split; congruence.
Qed.

End CodedResults.

(** ** Sessions the manager forgets, text records it writes, messages
       it parses *)

(** Evaluate the innermost step of a trace whose world is known. *)
Ltac eval_innermost_step :=
  match goal with
  | |- context [NFCManager.step ?d ?w ?e] =>
      lazymatch w with
      | context [NFCManager.step] => fail
      | context [NFCManager.processTag] => fail
      | _ =>
          lazymatch e with
          | NFCManager.runTask =>
              let w' := eval cbv [NFCManager.step NFCManager.tasks
                                  NFCManager.setTasks] in (NFCManager.step d w e) in
              change (NFCManager.step d w e) with w'
          | _ =>
              let w' := eval cbv in (NFCManager.step d w e) in
              change (NFCManager.step d w e) with w'
          end
      end
  end.

(** Replace a processed tag by the one [emitAndClose] it ends in. *)
Ltac eval_processTag :=
  match goal with
  | |- context [NFCManager.processTag ?d ?t ?s ?w] =>
      let r := fresh "r" in
      let msg := fresh "msg" in
      destruct (processTag_emitAndClose d t s w) as (r & msg & ->);
      match goal with
      | |- context [NFCManager.emitAndClose ?s0 ?r0 ?w0] =>
          let w' := eval cbv in (NFCManager.emitAndClose s0 r0 w0) in
          change (NFCManager.emitAndClose s0 r0 w0) with w'
      end
  end.

Section ManagerLifecycle.

Import NFCManager.

(** A close scheduled for a finished session fires after the next
    session has begun: on a device with NFC, a scan reads a tag, a
    second scan starts within half a second, then the first scan's
    close fires and the user stops.  The second session (1) has begun
    and is never invalidated, although the manager holds no session
    and reports none active; the stop reaches only the callback. *)
Theorem late_close_forgets_running_session (dev : Device) (tag : Tag)
  (cb1 cb2 : Callback) :
  readingAvailable dev = true ->
  sessionCreated dev = true ->
  let w := run dev initWorld
             [callScan cb1; detected 0%nat [tag]; runTask; callScan cb2;
              fireTimer; callStop] in
  In (begin 1%nat) (nativeCalls w) /\
  ~ In (invalidate 1%nat) (nativeCalls w) /\
  readerSession (manager w) = None /\
  getIsSessionActive w = false.
Proof.
  intros Hav Hcr.
  destruct dev as [av cr f g]. cbn in Hav, Hcr. subst av cr.
  unfold run. cbn [fold_left].
  do 3 eval_innermost_step. eval_processTag.
  do 3 eval_innermost_step.
  cbv [getIsSessionActive manager readerSession isSessionActive nativeCalls].
  repeat split.
  - cbn. tauto.
  - cbn. intros H. repeat (destruct H as [H | H]; [discriminate H |]). exact H.
Qed.

End ManagerLifecycle.

Lemma textOf_app (l1 l2 : list byte) :
  Spec.textOf (l1 ++ l2) = Spec.textOf l1 ++ Spec.textOf l2.
Proof. induction l1; simpl; congruence. Qed.

Lemma dropLeading_textOf_app (l1 l2 : list byte) :
  Spec.dropLeading (List.length l1) (Spec.textOf (l1 ++ l2)) = Spec.textOf l2.
Proof. induction l1; simpl; [destruct (Spec.textOf l2) |]; auto. Qed.

Lemma status_byte_of_short_locale (n : nat) :
  (n < 10)%nat ->
  exists b, Byte.of_N (N.land (N.of_nat n) 63) = Some b /\
            Byte.to_N b = N.of_nat n /\ Spec.languageCodeLength b = n.
Proof.
  intros H.
  do 10 (destruct n as [| n]; [eexists; repeat split; reflexivity |]). lia.
Qed.

(** What the Swift side writes, the TypeScript side reads back: the
    text record [makeTextPayload] builds for a locale of fewer than
    ten bytes (such as "en") is decoded by [recordToJSON] to exactly
    the text, one character per byte. *)
Theorem makeTextPayload_decodes_to_text (tbl : list string) (textData langData : list byte) :
  (List.length langData < 10)%nat ->
  Ndef.payloadAsString (Ndef.recordToJSON tbl (NFCManager.makeTextPayload textData langData))
  = Spec.textOf textData.
Proof.
  intros Hlen.
  destruct (status_byte_of_short_locale _ Hlen) as (b & Hb & Hto & Hl).
  unfold NFCManager.makeTextPayload. rewrite Hb.
  unfold Ndef.recordToJSON. cbn [Ndef.payloadAsString Ndef.type Ndef.payload].
  change (Ndef.hexToDec (hd_error (Ndef.nsdataToHexArray ["T"%byte]))) with (Some 84).
  cbn [Ndef.nsdataToHexArray Ndef.buf2hexArray map hd_error].
  rewrite status_below_10_read_as_length by (rewrite Hto; lia).
  rewrite js_substring_dropLeading, nsdataToASCIIString_textOf, Hl.
  rewrite Nat.add_1_r. cbn [Spec.textOf Spec.dropLeading].
  apply dropLeading_textOf_app.
Qed.

Lemma makeTextPayload_decodes_to_text_witness :
  Ndef.payloadAsString
    (Ndef.recordToJSON Spec.NfcUriProtocols
       (NFCManager.makeTextPayload (Spec.bytesOf "Written by NativeScript")
          (Spec.bytesOf "en")))
  = "Written by NativeScript".
Proof.
  apply (makeTextPayload_decodes_to_text Spec.NfcUriProtocols
           (Spec.bytesOf "Written by NativeScript") (Spec.bytesOf "en")).
  cbn. lia.
Defined.

Section ParseMessage.

Import NFCManager.

Lemma parseRecord_step (r : RecordView) (u t : option string) (parts : list string) :
  exists parts',
    parseRecord (u, t, parts) r
    = (match u with Some _ => u | None => Spec.recordUrl r end,
       match t with Some _ => t | None => Spec.recordText r end, parts').
Proof.
  unfold parseRecord, Spec.recordUrl, Spec.recordText.
  destruct (format r);
    try destruct (uriPayload r) as [s |];
    try destruct (textPayload r) as [[tx |] [loc |]];
    try destruct (payloadUtf8 r);
    destruct u, t; eexists; reflexivity.
Qed.

Lemma parseRecord_found (records : list RecordView)
  (u t : option string) (parts : list string) :
  fst (fst (fold_left parseRecord records (u, t, parts)))
  = match u with Some _ => u | None => Spec.firstSome Spec.recordUrl records end /\
  snd (fst (fold_left parseRecord records (u, t, parts)))
  = match t with Some _ => t | None => Spec.firstSome Spec.recordText records end.
Proof.
  revert u t parts. induction records as [| r records IH]; intros u t parts.
  - cbn. destruct u, t; split; reflexivity.
  - cbn [fold_left Spec.firstSome].
    destruct (parseRecord_step r u t parts) as [parts' ->].
    destruct (IH (match u with Some _ => u | None => Spec.recordUrl r end)
                 (match t with Some _ => t | None => Spec.recordText r end) parts')
      as [H1 H2].
    rewrite H1, H2.
    destruct u, t, (Spec.recordUrl r), (Spec.recordText r); split; reflexivity.
Qed.

(** The URL and the text [parseNdefMessage] reports are those of the
    first record, in tag order, that offers one; later URLs and texts
    only show up in [raw].  A message without records gives nothing at
    all. *)
Theorem parseNdefMessage_first_wins (records : list RecordView) :
  fst (fst (parseNdefMessage records)) = Spec.firstSome Spec.recordUrl records /\
  snd (fst (parseNdefMessage records)) = Spec.firstSome Spec.recordText records /\
  parseNdefMessage [] = (None, None, None).
Proof.
  unfold parseNdefMessage.
  destruct (parseRecord_found records None None []) as [H1 H2].
  destruct (fold_left parseRecord records (None, None, [])) as [[u t] parts].
  cbn in *. repeat split; assumption.
Qed.

End ParseMessage.

(** ** More on the facade *)

Lemma padStart_hex2 (c : ascii) :
  JS.padStart (JS.toString16 (N_of_ascii c)) 2 "0" = Ndef.hex2 (byte_of_ascii c).
Proof. destruct c as [[] [] [] [] [] [] [] []]; reflexivity. Qed.

Lemma stringToHex_buf2hexString (s : string) :
  Nfc.stringToHex s = Ndef.buf2hexString (Spec.bytesOf s).
Proof.
  unfold Ndef.buf2hexString, Spec.bytesOf.
  induction s as [| c s IH]; [reflexivity |].
  cbn [Nfc.stringToHex list_ascii_of_string map].
  rewrite join_empty_cons, padStart_hex2, IH. reflexivity.
Qed.

Lemma textOf_bytesOf (s : string) : Spec.textOf (Spec.bytesOf s) = s.
Proof.
  unfold Spec.bytesOf. induction s as [| c s IH]; [reflexivity |].
  cbn [list_ascii_of_string map Spec.textOf].
  rewrite ascii_of_byte_of_ascii. f_equal. exact IH.
Qed.

Lemma hex2a_stringToHex (s : string) : Ndef.hex2a (Nfc.stringToHex s) = s.
Proof.
  rewrite stringToHex_buf2hexString.
  change (Ndef.hex2a (Ndef.buf2hexString (Spec.bytesOf s)))
    with (Ndef.nsdataToASCIIString (Spec.bytesOf s)).
  rewrite nsdataToASCIIString_textOf. apply textOf_bytesOf.
Qed.

(** On strings whose code units are below 256, [stringToHex] writes
    two lower-case hexadecimal digits per character, as the decoder's
    [buf2hexString] does for the bytes, and [hex2a] reads the text
    back. *)
Theorem stringToHex_round_trip (s : string) :
  Nfc.stringToHex s = Spec.lowercaseHex (Spec.bytesOf s) /\
  Ndef.hex2a (Nfc.stringToHex s) = s /\
  String.length (Nfc.stringToHex s) = (2 * String.length s)%nat.
Proof.
  split; [| split].
  - rewrite stringToHex_buf2hexString. apply buf2hexString_lowercaseHex.
  - apply hex2a_stringToHex.
  - induction s as [| c s IH]; [reflexivity |].
    cbn [Nfc.stringToHex]. rewrite padStart_hex2, hex2_nibbles.
    cbn [String.append String.length]. rewrite IH. lia.
Qed.

(** The records built from a native scan result whose [url] and [text]
    have code units below 256 (the strings of this model): at most
    two, the URL (type 85) before the text (type 84); each carries a
    non-empty string of the result, unchanged, and its hexadecimal
    text reads back to that string.  Nothing is said of text with
    larger code units, where the hexadecimal text has more than two
    digits per character. *)
Theorem parseResultToNdefRecords_records (result : NFCManager.NFCResult) :
  (List.length (Nfc.parseResultToNdefRecords result) <= 2)%nat /\
  map Nfc.rtype (Nfc.parseResultToNdefRecords result)
  = ((if Nfc.truthy (NFCManager.url result) then [85] else [])
     ++ (if Nfc.truthy (NFCManager.text result) then [84] else []))%list /\
  (forall rec, In rec (Nfc.parseResultToNdefRecords result) ->
     Nfc.rpayloadAsString rec <> "" /\
     Nfc.rpayload rec = Nfc.rpayloadAsString rec /\
     Nfc.rpayloadAsStringWithPrefix rec = Nfc.rpayloadAsString rec /\
     Ndef.hex2a (Nfc.rpayloadAsHexString rec) = Nfc.rpayloadAsString rec /\
     (Nfc.rtype rec = 85 /\ NFCManager.url result = Some (Nfc.rpayloadAsString rec) \/
      Nfc.rtype rec = 84 /\ NFCManager.text result = Some (Nfc.rpayloadAsString rec))).
Proof.
  unfold Nfc.parseResultToNdefRecords.
  destruct (NFCManager.url result) as [[| c u] |],
           (NFCManager.text result) as [[| c' t] |];
    cbn; (split; [lia | split; [reflexivity |]]);
    intros rec Hin;
    repeat (destruct Hin as [Hin | Hin];
            [ subst rec;
              cbn [Nfc.resultRecord Nfc.rpayloadAsString Nfc.rpayload
                   Nfc.rpayloadAsStringWithPrefix Nfc.rpayloadAsHexString Nfc.rtype];
              rewrite hex2a_stringToHex;
              repeat split; try discriminate;
              first [left; split; reflexivity | right; split; reflexivity]
            | ]);
    contradiction.
Qed.


Section FacadeMore.

Import JS Nfc.

Context {M : Type} {native : NFCManagerInstance M}.
Variable platform : Platform.

(** The two probes can disagree: when the native manager reports NFC
    but the static probe does not, [available] resolves with true and
    yet [setOnNdefDiscoveredListener] rejects, leaving the object as it
    was. *)
Theorem listening_needs_static_probe (callback : option Callback)
  (options : option NdefListenerOptions) (nfc : Nfc.Nfc M) (m m' : M) :
  nativeManager nfc = Some m ->
  isAvailable m = (Normal true, m') ->
  _available platform = false ->
  fst (available platform nfc) = resolved true /\
  setOnNdefDiscoveredListener platform callback options nfc
  = (rejected "NFC not available", nfc).
Proof.
  intros Hm Ha Hs. unfold available, setOnNdefDiscoveredListener.
  rewrite Hm, Ha, Hs. split; reflexivity.
Qed.

(** Setting the listener to [null] is a stop, but only where the
    static probe reports NFC: there it does what [stopListening] does;
    elsewhere it rejects and stops nothing. *)
Theorem listener_null_stops (options : option NdefListenerOptions) (nfc : Nfc.Nfc M) :
  setOnNdefDiscoveredListener platform None options nfc
  = if _available platform then stopListening nfc
    else (rejected "NFC not available", nfc).
Proof.
  unfold setOnNdefDiscoveredListener, stopListening.
  destruct (_available platform); reflexivity.
Qed.

(** [writeTag] writes the first URI record only: further URI records
    and any text records given along with it change nothing. *)
Theorem writeTag_uses_first_uri_record (arg : WriteTagOptions) (nfc : Nfc.Nfc M)
  (first : UriRecord) (more : list UriRecord) :
  uriRecords arg = Some (first :: more) ->
  writeTag arg nfc = writeTag {| uriRecords := Some [first]; textRecords := None |} nfc.
Proof.
  intros H. unfold writeTag. rewrite H. reflexivity.
Qed.

End FacadeMore.

Lemma listening_needs_static_probe_witness :
  fst (Nfc.available (native := Nfc.swiftManager Spec.capableDevice)
         {| Nfc.isIOS11OrUp := false; Nfc.readingAvailable := JS.Normal true;
            Nfc.beginDelegateSession := JS.Normal 0%nat |} Spec.freshNfc)
  = Nfc.resolved true /\
  Nfc.setOnNdefDiscoveredListener (native := Nfc.swiftManager Spec.capableDevice)
    {| Nfc.isIOS11OrUp := false; Nfc.readingAvailable := JS.Normal true;
       Nfc.beginDelegateSession := JS.Normal 0%nat |} (Some 5%nat) None Spec.freshNfc
  = (Nfc.rejected "NFC not available", Spec.freshNfc).
Proof.
  apply (listening_needs_static_probe (native := Nfc.swiftManager Spec.capableDevice)
           _ (Some 5%nat) None Spec.freshNfc NFCManager.initWorld NFCManager.initWorld);
    reflexivity.
Defined.

Lemma writeTag_uses_first_uri_record_witness :
  Nfc.writeTag (native := Nfc.swiftManager Spec.capableDevice)
    {| Nfc.uriRecords := Some [{| Nfc.uri := "https://a.example" |};
                               {| Nfc.uri := "https://b.example" |}];
       Nfc.textRecords := Some [{| Nfc.text := "note"; Nfc.languageCode := None |}] |}
    Spec.freshNfc
  = Nfc.writeTag (native := Nfc.swiftManager Spec.capableDevice)
      {| Nfc.uriRecords := Some [{| Nfc.uri := "https://a.example" |}];
         Nfc.textRecords := None |} Spec.freshNfc.
Proof.
  apply (writeTag_uses_first_uri_record (native := Nfc.swiftManager Spec.capableDevice)
           _ Spec.freshNfc {| Nfc.uri := "https://a.example" |}
           [{| Nfc.uri := "https://b.example" |}]).
  reflexivity.
Defined.





(** ** Instances *)

Lemma dropped_callback_never_called_witness :
  NFCManager.deliveries 1%nat
    (NFCManager.run Spec.capableDevice
       (NFCManager.run Spec.capableDevice NFCManager.initWorld
          [NFCManager.callScan 1%nat; NFCManager.callScan 2%nat])
       [NFCManager.callStop; NFCManager.runMain])
  = 0%nat.
Proof.
  apply (dropped_callback_never_called Spec.capableDevice
           [NFCManager.callStop; NFCManager.runMain]
           (NFCManager.run Spec.capableDevice NFCManager.initWorld
              [NFCManager.callScan 1%nat; NFCManager.callScan 2%nat]) 1%nat).
  - discriminate.
  - intros e [<- | [<- | []]]; discriminate.
Defined.

Lemma didDetect_restarts_polling_witness :
  exists msg,
    NFCManager.didDetect 0%nat [] NFCManager.initWorld
    = NFCManager.asyncAfter (NFCManager.restartBlock 0%nat)
        (NFCManager.native (NFCManager.alertMessage 0%nat msg) NFCManager.initWorld).
Proof.
  destruct (didDetect_restarts_polling 0%nat [] NFCManager.initWorld) as [msg [H _]].
  - discriminate.
  - exists msg. exact H.
Defined.

Lemma invalidation_reports_failure_witness :
  exists r,
    NFCManager.mainQueue
      (NFCManager.didInvalidateWithError
         (NFCManager.readerError
            NFCManager.readerSessionInvalidationErrorSessionTimeout "timeout")
         NFCManager.initWorld)
    = [NFCManager.emitBlock r] /\
    NFCManager.success r = false /\ NFCManager.errorCode r <> None.
Proof.
  destruct (invalidation_reports_failure
              (NFCManager.readerError
                 NFCManager.readerSessionInvalidationErrorSessionTimeout "timeout")
              NFCManager.initWorld eq_refl eq_refl) as (r & H1 & H2 & H3 & _).
  exists r. repeat split; assumption.
Defined.

Lemma invalidation_error_codes_distinct_witness :
  NFCManager.readerSessionInvalidationErrorSystemIsBusy
  = NFCManager.readerSessionInvalidationErrorSystemIsBusy \/
  (exists z1 z2,
     NFCManager.readerSessionInvalidationErrorSystemIsBusy = NFCManager.unknownCode z1 /\
     NFCManager.readerSessionInvalidationErrorSystemIsBusy = NFCManager.unknownCode z2).
Proof.
  apply (invalidation_error_codes_distinct
           NFCManager.readerSessionInvalidationErrorSystemIsBusy
           NFCManager.readerSessionInvalidationErrorSystemIsBusy "a" "b"
           NFCManager.initWorld
           (NFCManager.failureResult "NFC is busy. Please try again." "SYSTEM_BUSY")
           (NFCManager.failureResult "NFC is busy. Please try again." "SYSTEM_BUSY"));
    reflexivity.
Defined.

Lemma scan_without_nfc_witness :
  NFCManager.readerSession
    (NFCManager.manager
       (NFCManager.scanWithCallback
          {| NFCManager.readingAvailable := false; NFCManager.sessionCreated := true;
             NFCManager.urlAbsoluteString := fun u => Some u;
             NFCManager.wellKnownTypeURIPayload := fun _ => true |}
          4%nat NFCManager.initWorld)) = None.
Proof.
  apply (scan_without_nfc
           {| NFCManager.readingAvailable := false; NFCManager.sessionCreated := true;
              NFCManager.urlAbsoluteString := fun u => Some u;
              NFCManager.wellKnownTypeURIPayload := fun _ => true |}
           4%nat NFCManager.initWorld eq_refl).
Defined.

Lemma write_success_only_when_written_witness :
  NFCManager.queryNDEFStatus
    {| NFCManager.connects := true;
       NFCManager.queryNDEFStatus := Some NFCManager.readWrite;
       NFCManager.readNDEF := None; NFCManager.writeNDEF := true;
       NFCManager.failure := "" |} = Some NFCManager.readWrite.
Proof.
  apply (write_success_only_when_written Spec.capableDevice
           {| NFCManager.connects := true;
              NFCManager.queryNDEFStatus := Some NFCManager.readWrite;
              NFCManager.readNDEF := None; NFCManager.writeNDEF := true;
              NFCManager.failure := "" |}
           0%nat
           (NFCManager.writeWithUrlCallback Spec.capableDevice "https://example.com"
              0%nat NFCManager.initWorld)
           {| NFCManager.success := true; NFCManager.message := "Write successful.";
              NFCManager.url := Some "https://example.com"; NFCManager.text := None;
              NFCManager.raw := None; NFCManager.errorCode := None |});
    vm_compute; reflexivity.
Defined.

Lemma delivered_results_coded_witness :
  NFCManager.success
    {| NFCManager.success := false; NFCManager.message := "Session stopped by user.";
       NFCManager.url := None; NFCManager.text := None; NFCManager.raw := None;
       NFCManager.errorCode := Some "USER_STOPPED" |} = false
  <-> NFCManager.errorCode
        {| NFCManager.success := false; NFCManager.message := "Session stopped by user.";
           NFCManager.url := None; NFCManager.text := None; NFCManager.raw := None;
           NFCManager.errorCode := Some "USER_STOPPED" |} <> None.
Proof.
  apply (delivered_results_coded Spec.capableDevice
           [NFCManager.callScan 1%nat; NFCManager.callStop; NFCManager.runMain] 1%nat).
  left. reflexivity.
Defined.

Lemma late_close_forgets_running_session_witness :
  In (NFCManager.begin 1%nat)
    (NFCManager.nativeCalls
       (NFCManager.run Spec.capableDevice NFCManager.initWorld
          [NFCManager.callScan 1%nat;
           NFCManager.detected 0%nat
             [{| NFCManager.connects := true;
                 NFCManager.queryNDEFStatus := Some NFCManager.readOnly;
                 NFCManager.readNDEF := Some (Some "https://example.com", None, None);
                 NFCManager.writeNDEF := false; NFCManager.failure := "" |}];
           NFCManager.runTask; NFCManager.callScan 2%nat;
           NFCManager.fireTimer; NFCManager.callStop])).
Proof.
  apply (late_close_forgets_running_session Spec.capableDevice
           {| NFCManager.connects := true;
              NFCManager.queryNDEFStatus := Some NFCManager.readOnly;
              NFCManager.readNDEF := Some (Some "https://example.com", None, None);
              NFCManager.writeNDEF := false; NFCManager.failure := "" |}
           1%nat 2%nat eq_refl eq_refl).
Defined.

(** ** The session the manager holds *)

Section HeldSession.

Import NFCManager.

Variable dev : Device.

Lemma emitResult_session r w :
  readerSession (manager (emitResult r w)) = readerSession (manager w) /\
  isSessionActive (manager (emitResult r w)) = isSessionActive (manager w).
Proof. unfold emitResult. destruct (hasEmittedResult (manager w)); split; reflexivity. Qed.

Lemma emitAndClose_session s r w :
  readerSession (manager (emitAndClose s r w)) = readerSession (manager w) /\
  isSessionActive (manager (emitAndClose s r w)) = isSessionActive (manager w).
Proof. unfold emitAndClose. cbn [asyncAfter manager]. apply emitResult_session. Qed.

(** What one event does to the session held and to the active flag:
    it leaves both alone, or drops the session and clears the flag, or
    takes a session and sets the flag. *)
Lemma step_session w e :
  (readerSession (manager (step dev w e)) = readerSession (manager w) /\
   isSessionActive (manager (step dev w e)) = isSessionActive (manager w)) \/
  (readerSession (manager (step dev w e)) = None /\
   isSessionActive (manager (step dev w e)) = false) \/
  (exists s, readerSession (manager (step dev w e)) = Some s /\
             isSessionActive (manager (step dev w e)) = true).
Proof.
  assert (Hstart : forall mode w0,
             isSessionActive (manager w0) = false ->
             (readerSession (manager (startSession dev mode w0)) = None /\
              isSessionActive (manager (startSession dev mode w0)) = false) \/
             (exists s, readerSession (manager (startSession dev mode w0)) = Some s /\
                        isSessionActive (manager (startSession dev mode w0)) = true)).
  { intros mode w0 H0.
    destruct w0 as [[rs sm wu rc he ia] q t ts d calls ns]. cbn in H0. subst ia.
    unfold startSession.
    destruct (readingAvailable dev), (sessionCreated dev), rs, he; cbn;
      first [ left; split; reflexivity | right; eexists; split; reflexivity ]. }
  destruct e; cbn [step].
  - right. apply Hstart. reflexivity.
  - right. apply Hstart. reflexivity.
  - right. left.
    destruct w as [[rs sm wu rc he ia] q t ts d calls ns].
    destruct rs, rc, he; split; reflexivity.
  - right. left.
    destruct w as [[rs sm wu rc he ia] q t ts d calls ns].
    destruct error as [[] desc | desc], he; split; reflexivity.
  - left. split; reflexivity.
  - left. unfold didDetect. destruct (1 <? List.length tags)%nat; [split; reflexivity |].
    destruct tags; split; reflexivity.
  - destruct (mainQueue w) as [| [r | s | s] q]; cbn [runBlock].
    + left; split; reflexivity.
    + left. destruct (resultCallback (manager (setMainQueue q w))); split; reflexivity.
    + right. left. split; reflexivity.
    + left; split; reflexivity.
  - destruct (tasks w) as [| [tag s] q]; [left; split; reflexivity |].
    left. destruct (processTag_emitAndClose dev tag s (setTasks q w)) as (r & msg & ->).
    apply (emitAndClose_session s r (native (alertMessage s msg) (setTasks q w))).
  - destruct (timers w) as [| [r | s | s] q]; cbn [runBlock].
    + left; split; reflexivity.
    + left. destruct (resultCallback (manager (setTimers q w))); split; reflexivity.
    + right. left. split; reflexivity.
    + left; split; reflexivity.
Qed.

Lemma active_iff_session_run (trace : list Event) (w : World) :
  (isSessionActive (manager w) = true <-> readerSession (manager w) <> None) ->
  (isSessionActive (manager (run dev w trace)) = true <->
   readerSession (manager (run dev w trace)) <> None).
Proof.
  revert w. induction trace as [| e trace IH]; intros w H; [exact H |].
  cbn [run fold_left]. apply IH.
  destruct (step_session w e) as [[-> ->] | [[-> ->] | [s [-> ->]]]].
  - exact H.
  - split; [discriminate | congruence].
  - split; [discriminate | reflexivity].
Qed.

(** Whatever happens, [getIsSessionActive] is true exactly when the
    manager holds a session. *)
Theorem active_iff_session_held (trace : list Event) :
  getIsSessionActive (run dev initWorld trace) = true <->
  readerSession (manager (run dev initWorld trace)) <> None.
Proof.
  apply active_iff_session_run. cbn. split; [discriminate | congruence].
Qed.

(** Starting while a session is held invalidates that session first,
    and begins at most one new session, the next in number. *)
Theorem start_invalidates_held_session (start : Event) (cb : Callback)
  (w : World) (s : Session) :
  registers start = Some cb ->
  readerSession (manager w) = Some s ->
  nativeCalls (step dev w start) = (nativeCalls w ++ [invalidate s])%list \/
  exists msg,
    nativeCalls (step dev w start)
    = (nativeCalls w ++ [invalidate s; alertMessage (nextSession w) msg;
                         begin (nextSession w)])%list.
Proof.
  intros Hreg Hs.
  destruct w as [[rs sm wu rc he ia] q t ts d calls ns]. cbn in Hs. subst rs.
  destruct start; try discriminate Hreg; cbn [step];
    unfold scanWithCallback, writeWithUrlCallback, startSession;
    destruct (readingAvailable dev), (sessionCreated dev); cbn;
    first [ left; reflexivity
          | right; eexists; rewrite <- !app_assoc; reflexivity ].
Qed.

End HeldSession.

Lemma start_invalidates_held_session_witness :
  NFCManager.nativeCalls
    (NFCManager.step Spec.capableDevice
       (NFCManager.step Spec.capableDevice NFCManager.initWorld
          (NFCManager.callScan 1%nat))
       (NFCManager.callScan 2%nat))
  = (NFCManager.nativeCalls
       (NFCManager.step Spec.capableDevice NFCManager.initWorld
          (NFCManager.callScan 1%nat)) ++ [NFCManager.invalidate 0%nat])%list \/
  exists msg,
    NFCManager.nativeCalls
      (NFCManager.step Spec.capableDevice
         (NFCManager.step Spec.capableDevice NFCManager.initWorld
            (NFCManager.callScan 1%nat))
         (NFCManager.callScan 2%nat))
    = (NFCManager.nativeCalls
         (NFCManager.step Spec.capableDevice NFCManager.initWorld
            (NFCManager.callScan 1%nat))
       ++ [NFCManager.invalidate 0%nat;
           NFCManager.alertMessage
             (NFCManager.nextSession
                (NFCManager.step Spec.capableDevice NFCManager.initWorld
                   (NFCManager.callScan 1%nat))) msg;
           NFCManager.begin
             (NFCManager.nextSession
                (NFCManager.step Spec.capableDevice NFCManager.initWorld
                   (NFCManager.callScan 1%nat)))])%list.
Proof.
  apply (start_invalidates_held_session Spec.capableDevice
           (NFCManager.callScan 2%nat) 2%nat
           (NFCManager.step Spec.capableDevice NFCManager.initWorld
              (NFCManager.callScan 1%nat)) 0%nat); reflexivity.
Defined.
